(** * GenAILiveClient: the streaming session client of the coaching console

    A shallow embedding of [GenAILiveClient] (the websocket client class
    built on [EventEmitter]) and the properties of its connection life
    cycle, reconnection policy, inbound message dispatch and outbound
    command paths.

    Conventions of the embedding.
    - The private fields of the class are the record [Client]; a method is a
      computation in the monad [M], which threads the fields and collects,
      in program order, every externally visible action of the method
      (listener notification, transport call, timer, console line) together
      with the fields as they stood when the action was performed.
    - JavaScript numbers are exact integers here ([Z], [nat]); all the
      quantities involved (attempt counters, millisecond delays, byte
      lengths) are integers far below 2^53.
    - [new Date()] in a log record is not represented.
    - JavaScript objects that are compared by identity (content parts) are
      references into a store. *)

From Stdlib Require Import ZArith List String Ascii Bool Lia DecimalString.
Import ListNotations.
Open Scope string_scope.
Open Scope list_scope.

(** ** The JavaScript primitives the class relies on *)

Module JS.

(** Truthiness of a possibly absent string: [undefined], [null] and [""]
    are falsy. *)
Definition truthy (o : option string) : bool :=
  match o with
  | Some s => negb (String.eqb s "")
  | None => false
  end.

(** Truthiness of a possibly absent boolean. *)
Definition truthyb (o : option bool) : bool :=
  match o with
  | Some b => b
  | None => false
  end.

(** [s.startsWith(p)] *)
Definition startsWith (p s : string) : bool := String.prefix p s.

(** [s.includes(p)] *)
Fixpoint includes (p s : string) : bool :=
  String.prefix p s ||
  match s with
  | EmptyString => false
  | String _ s' => includes p s'
  end.

(** Template interpolation of a possibly absent string. *)
Definition show (o : option string) : string :=
  match o with
  | Some s => s
  | None => "undefined"
  end.

(** Template interpolation of a non-negative integer. *)
Definition showNat (n : nat) : string :=
  NilEmpty.string_of_uint (Nat.to_uint n).

Definition isWhite (c : ascii) : bool :=
  match nat_of_ascii c with
  | 9 | 10 | 11 | 12 | 13 | 32 => true
  | _ => false
  end.

Fixpoint trimStart (s : string) : string :=
  match s with
  | String c s' => if isWhite c then trimStart s' else s
  | EmptyString => s
  end.

Definition digitValue (c : ascii) : option Z :=
  let n := Z.of_nat (nat_of_ascii c) in
  if ((48 <=? n) && (n <=? 57))%Z then Some (n - 48)%Z
  else if ((97 <=? n) && (n <=? 122))%Z then Some (n - 87)%Z
  else if ((65 <=? n) && (n <=? 90))%Z then Some (n - 55)%Z
  else None.

(** Longest prefix of digits of the radix; [None] when there is none. *)
Fixpoint digits (radix : Z) (s : string) (acc : option Z) : option Z :=
  match s with
  | String c s' =>
      match digitValue c with
      | Some d =>
          if (d <? radix)%Z
          then digits radix s'
                 (Some (match acc with
                        | Some a => a
                        | None => 0
                        end * radix + d)%Z)
          else acc
      | None => acc
      end
  | EmptyString => acc
  end.

(** [parseInt(s)] without a radix argument; [None] is [NaN]. *)
Definition parseInt (s : string) : option Z :=
  let s := trimStart s in
  let '(neg, s) :=
    match s with
    | String "-"%char s' => (true, s')
    | String "+"%char s' => (false, s')
    | _ => (false, s)
    end in
  let '(radix, s) :=
    match s with
    | String "0"%char (String "x"%char s') => (16%Z, s')
    | String "0"%char (String "X"%char s') => (16%Z, s')
    | _ => (10%Z, s)
    end in
  option_map (fun v => if neg then (- v)%Z else v) (digits radix s None).

(** lodash [difference(xs, ys)]: the elements of [xs], in order, that are
    not SameValueZero-equal to an element of [ys]; on object references
    SameValueZero is identity. *)
Definition difference (xs ys : list nat) : list nat :=
  filter (fun x => negb (existsb (Nat.eqb x) ys)) xs.

End JS.

(** ** Data model *)

Module GenAILiveClient.

(** [_status] *)
Inductive Status := connected | disconnected | connecting.

(** The transport session object returned by [client.live.connect]; only
    its identity matters. *)
Definition Session := nat.

(** [LiveConnectConfig] is opaque to the client. *)
Definition LiveConnectConfig := nat.

(** [Blob]: both fields are optional in the SDK's type. *)
Record Blob := { mimeType : option string; data : option string }.

(** [Part]: the client only reads [inlineData] and [text]. *)
Record Part := { inlineData : option Blob; text : option string }.

(** A reference to a [Part] object, and the store that holds the objects. *)
Definition PartRef := nat.
Definition Heap := PartRef -> Part.

(** A realtime media chunk: [{ mimeType: string; data: string }]. *)
Record Chunk := { chunkMime : string; chunkData : string }.

Record FunctionResponse :=
  { frId : string; frName : string; frResponse : string }.

(** [LiveClientToolResponse] *)
Record LiveClientToolResponse :=
  { functionResponses : option (list FunctionResponse) }.

Record CloseEvent := { code : Z; reason : string }.
Record ErrorEvent := { message : string }.

Record GoAway := { timeLeft : option string }.

Record SessionResumptionUpdate :=
  { resumable : option bool; newHandle : option string }.

(** [Content]; a [modelTurn] key holding [null] behaves like a content
    without [parts]. *)
Record Content := { parts : option (list PartRef) }.

(** [LiveServerContent]: [Some] means the key is present (the tests are
    [key in serverContent]). *)
Record LiveServerContent :=
  { interrupted : option bool;
    turnComplete : option bool;
    modelTurn : option Content }.

Definition LiveServerToolCall := list string.
Definition LiveServerToolCallCancellation := list string.

(** [LiveServerMessage]: [Some] means the field holds an object. *)
Record LiveServerMessage :=
  { setupComplete : option unit;
    goAway : option GoAway;
    sessionResumptionUpdate : option SessionResumptionUpdate;
    toolCall : option LiveServerToolCall;
    toolCallCancellation : option LiveServerToolCallCancellation;
    serverContent : option LiveServerContent }.

Definition ArrayBuffer := list Byte.byte.

(** The private fields of the class. *)
Record Client :=
  { status : Status;
    session : option Session;
    model : option string;
    config : option LiveConnectConfig;
    resumptionHandle : option string;
    autoReconnectEnabled : bool;
    reconnectAttempts : nat;
    maxReconnectAttempts : nat;
    reconnectDelay : Z }.

(** The fields right after construction. *)
Definition initial : Client :=
  {| status := disconnected;
     session := None;
     model := None;
     config := None;
     resumptionHandle := None;
     autoReconnectEnabled := true;
     reconnectAttempts := 0;
     maxReconnectAttempts := 5;
     reconnectDelay := 1000 |}.

Definition set_status (v : Status) (c : Client) : Client :=
  {| status := v; session := session c; model := model c;
     config := config c; resumptionHandle := resumptionHandle c;
     autoReconnectEnabled := autoReconnectEnabled c;
     reconnectAttempts := reconnectAttempts c;
     maxReconnectAttempts := maxReconnectAttempts c;
     reconnectDelay := reconnectDelay c |}.

Definition set_session (v : option Session) (c : Client) : Client :=
  {| status := status c; session := v; model := model c;
     config := config c; resumptionHandle := resumptionHandle c;
     autoReconnectEnabled := autoReconnectEnabled c;
     reconnectAttempts := reconnectAttempts c;
     maxReconnectAttempts := maxReconnectAttempts c;
     reconnectDelay := reconnectDelay c |}.

Definition set_model (v : option string) (c : Client) : Client :=
  {| status := status c; session := session c; model := v;
     config := config c; resumptionHandle := resumptionHandle c;
     autoReconnectEnabled := autoReconnectEnabled c;
     reconnectAttempts := reconnectAttempts c;
     maxReconnectAttempts := maxReconnectAttempts c;
     reconnectDelay := reconnectDelay c |}.

Definition set_config (v : option LiveConnectConfig) (c : Client) : Client :=
  {| status := status c; session := session c; model := model c;
     config := v; resumptionHandle := resumptionHandle c;
     autoReconnectEnabled := autoReconnectEnabled c;
     reconnectAttempts := reconnectAttempts c;
     maxReconnectAttempts := maxReconnectAttempts c;
     reconnectDelay := reconnectDelay c |}.

Definition set_resumptionHandle (v : option string) (c : Client) : Client :=
  {| status := status c; session := session c; model := model c;
     config := config c; resumptionHandle := v;
     autoReconnectEnabled := autoReconnectEnabled c;
     reconnectAttempts := reconnectAttempts c;
     maxReconnectAttempts := maxReconnectAttempts c;
     reconnectDelay := reconnectDelay c |}.

Definition set_autoReconnectEnabled (v : bool) (c : Client) : Client :=
  {| status := status c; session := session c; model := model c;
     config := config c; resumptionHandle := resumptionHandle c;
     autoReconnectEnabled := v;
     reconnectAttempts := reconnectAttempts c;
     maxReconnectAttempts := maxReconnectAttempts c;
     reconnectDelay := reconnectDelay c |}.

Definition set_reconnectAttempts (v : nat) (c : Client) : Client :=
  {| status := status c; session := session c; model := model c;
     config := config c; resumptionHandle := resumptionHandle c;
     autoReconnectEnabled := autoReconnectEnabled c;
     reconnectAttempts := v;
     maxReconnectAttempts := maxReconnectAttempts c;
     reconnectDelay := reconnectDelay c |}.

(** *** Externally visible actions *)

(** Payload of a [StreamingLog]. *)
Inductive LogMessage :=
| LogText (s : string)
| LogServerMessage (m : LiveServerMessage)
| LogToolResponse (r : LiveClientToolResponse)
| LogClientContent (turns : list PartRef) (turnComplete : bool).

(** [LiveClientEventTypes] *)
Inductive Event :=
| EvAudio (data : ArrayBuffer)
| EvClose (e : CloseEvent)
| EvContent (modelTurnParts : list PartRef)
| EvError (e : ErrorEvent)
| EvInterrupted
| EvLog (type : string) (msg : LogMessage)
| EvOpen
| EvSetupComplete
| EvToolCall (t : LiveServerToolCall)
| EvToolCallCancellation (t : LiveServerToolCallCancellation)
| EvTurnComplete.

(** What a timer runs when it fires. *)
Inductive TimerCallback :=
| CbAttemptReconnection
| CbGoAwayReconnection.

(** The content argument of [send]: a single part or an array. *)
Inductive Turns :=
| OnePart (p : PartRef)
| ManyParts (ps : list PartRef).

Inductive ConsoleLevel := ConsoleLog | ConsoleError.

Inductive Effect :=
| Emit (ev : Event)
| LiveConnect (model : string) (config : LiveConnectConfig)
              (sessionResumption : option string)
| SessionClose (s : Session)
| SessionSendRealtimeInput (s : Session) (media : Chunk)
| SessionSendToolResponse (s : Session) (rs : list FunctionResponse)
| SessionSendClientContent (s : Session) (turns : Turns) (turnComplete : bool)
| SetTimeout (cb : TimerCallback) (delay : Z)
| Console (lvl : ConsoleLevel).

(** An action and the fields at the moment it was performed (what a
    listener reading the getters would see). *)
Definition Trace := list (Effect * Client).

Definition effects (t : Trace) : list Effect := map fst t.

(** *** The method monad *)

Definition M (A : Type) : Type := Client -> A * Client * Trace.

Definition ret {A} (a : A) : M A := fun c => (a, c, []).

Definition bind {A B} (m : M A) (k : A -> M B) : M B :=
  fun c =>
    let '(a, c1, t1) := m c in
    let '(b, c2, t2) := k a c1 in
    (b, c2, t1 ++ t2).

Definition get : M Client := fun c => (c, c, []).

Definition modify (f : Client -> Client) : M unit := fun c => (tt, f c, []).

Definition perform (e : Effect) : M unit := fun c => (tt, c, [(e, c)]).

Definition when (b : bool) (m : M unit) : M unit :=
  if b then m else ret tt.

Definition result {A} (r : A * Client * Trace) : A := fst (fst r).
Definition final {A} (r : A * Client * Trace) : Client := snd (fst r).
Definition trace {A} (r : A * Client * Trace) : Trace := snd r.

Declare Scope method_scope.
Delimit Scope method_scope with method.
Notation "x <- m ;; k" := (bind m (fun x => k))
  (at level 61, m at next level, right associativity) : method_scope.
Notation "m ;; k" := (bind m (fun _ => k))
  (at level 61, right associativity) : method_scope.
Open Scope method_scope.

(** ** The methods *)

(** [log(type, message)]: builds the record and emits it on ["log"]. *)
Definition log (type : string) (msg : LogMessage) : M unit :=
  perform (Emit (EvLog type msg)).

(** [this.session?.f(...)]: the call is skipped when there is no session. *)
Definition withSession (f : Session -> Effect) : M unit :=
  c <- get ;;
  match session c with
  | Some s => perform (f s)
  | None => ret tt
  end.

(** [scheduleReconnect()] *)
Definition scheduleReconnect : M unit :=
  c <- get ;;
  if Nat.leb (maxReconnectAttempts c) (reconnectAttempts c) then
    perform (Console ConsoleError) ;;
    modify (set_autoReconnectEnabled false)
  else
    let delay := (reconnectDelay c * 2 ^ Z.of_nat (reconnectAttempts c))%Z in
    modify (set_reconnectAttempts (S (reconnectAttempts c))) ;;
    perform (Console ConsoleLog) ;;
    perform (SetTimeout CbAttemptReconnection delay).

(** How the awaited [client.live.connect] settles. *)
Inductive OpenResult :=
| Opened (s : Session)
| OpenFailed.

Definition Status_eqb (a b : Status) : bool :=
  match a, b with
  | connected, connected => true
  | disconnected, disconnected => true
  | connecting, connecting => true
  | _, _ => false
  end.

(** [connect(model, config)] up to its [await]: the result tells whether
    the transport open was issued. *)
Definition connectBegin (m : string) (cfg : LiveConnectConfig) : M bool :=
  c <- get ;;
  if Status_eqb (status c) connected || Status_eqb (status c) connecting
  then ret false
  else
    modify (set_status connecting) ;;
    modify (set_config (Some cfg)) ;;
    modify (set_model (Some m)) ;;
    c <- get ;;
    perform (LiveConnect m cfg
               (if JS.truthy (resumptionHandle c)
                then resumptionHandle c else None)) ;;
    ret true.

(** [connect(model, config)] from the point where the [await] settles. *)
Definition connectResume (r : OpenResult) : M bool :=
  match r with
  | Opened s =>
      modify (set_session (Some s)) ;;
      modify (set_status connected) ;;
      modify (set_reconnectAttempts 0) ;;
      ret true
  | OpenFailed =>
      perform (Console ConsoleError) ;;
      modify (set_status disconnected) ;;
      c <- get ;;
      if autoReconnectEnabled c
         && Nat.ltb (reconnectAttempts c) (maxReconnectAttempts c)
      then scheduleReconnect ;; ret false
      else ret false
  end.

(** [connect(model, config)] when nothing else runs during the [await]. *)
Definition connect (m : string) (cfg : LiveConnectConfig) (r : OpenResult)
  : M bool :=
  started <- connectBegin m cfg ;;
  if started then connectResume r else ret false.

(** [disconnect()] *)
Definition disconnect : M bool :=
  c <- get ;;
  match session c with
  | None => ret false
  | Some s =>
      perform (SessionClose s) ;;
      modify (set_session None) ;;
      modify (set_status disconnected) ;;
      log "client.close" (LogText "Disconnected") ;;
      ret true
  end.

(** [onopen()] *)
Definition onopen : M unit :=
  log "client.open" (LogText "Connected") ;;
  perform (Emit EvOpen).

(** [onerror(e)] *)
Definition onerror (e : ErrorEvent) : M unit :=
  log "server.error" (LogText (message e)) ;;
  perform (Emit (EvError e)).

(** [onclose(e)] *)
Definition onclose (e : CloseEvent) : M unit :=
  log "server.close"
    (LogText (String.append "disconnected "
                (if JS.truthy (Some (reason e))
                 then String.append "with reason: " (reason e)
                 else ""))) ;;
  modify (set_status disconnected) ;;
  modify (set_session None) ;;
  c <- get ;;
  when (autoReconnectEnabled c && negb (code e =? 1000)%Z)
    (perform (Console ConsoleLog) ;;
     scheduleReconnect) ;;
  perform (Emit (EvClose e)).

(** The body of [attemptReconnection()] before [connect] awaits: the
    result tells whether a transport open is pending.  [connect] settles
    every failure itself and never throws, so the handler of the
    surrounding [try] has nothing to handle. *)
Definition attemptReconnectionBegin : M bool :=
  c <- get ;;
  match config c, model c with
  | Some cfg, Some m =>
      if JS.truthy (Some m) then
        perform (Console ConsoleLog) ;;
        connectBegin m cfg
      else perform (Console ConsoleError) ;; ret false
  | _, _ => perform (Console ConsoleError) ;; ret false
  end.

(** [attemptReconnection()] from the point where [connect] resumes. *)
Definition attemptReconnectionResume (r : OpenResult) : M unit :=
  success <- connectResume r ;;
  when success
    (perform (Console ConsoleLog) ;;
     perform (Emit EvSetupComplete)).

(** [attemptReconnection()] *)
Definition attemptReconnection (r : OpenResult) : M unit :=
  pending <- attemptReconnectionBegin ;;
  if pending then attemptReconnectionResume r else ret tt.

(** The callback of the timer armed by a termination warning. *)
Definition goAwayTimer (r : OpenResult) : M unit :=
  c <- get ;;
  if Status_eqb (status c) connected then attemptReconnection r else ret tt.

(** The loop of [sendRealtimeInput]: the flags are the loop's variables,
    and [break] ends it. *)
Fixpoint realtimeLoop (chunks : list Chunk) (hasAudio hasVideo : bool)
  : M (bool * bool) :=
  match chunks with
  | [] => ret (hasAudio, hasVideo)
  | ch :: rest =>
      withSession (fun s => SessionSendRealtimeInput s ch) ;;
      let hasAudio :=
        if JS.includes "audio" (chunkMime ch) then true else hasAudio in
      let hasVideo :=
        if JS.includes "image" (chunkMime ch) then true else hasVideo in
      if hasAudio && hasVideo
      then ret (hasAudio, hasVideo)
      else realtimeLoop rest hasAudio hasVideo
  end.

(** [sendRealtimeInput(chunks)] *)
Definition sendRealtimeInput (chunks : list Chunk) : M unit :=
  flags <- realtimeLoop chunks false false ;;
  let '(hasAudio, hasVideo) := flags in
  let message :=
    if hasAudio && hasVideo then "audio + video"
    else if hasAudio then "audio"
    else if hasVideo then "video"
    else "unknown" in
  log "client.realtimeInput" (LogText message).

(** [sendToolResponse(toolResponse)] *)
Definition sendToolResponse (toolResponse : LiveClientToolResponse) : M unit :=
  match functionResponses toolResponse with
  | Some rs =>
      if negb (Nat.eqb (List.length rs) 0) then
        withSession (fun s => SessionSendToolResponse s rs) ;;
        log "client.toolResponse" (LogToolResponse toolResponse)
      else ret tt
  | None => ret tt
  end.

(** The test of [send] for the system command tag; its value is computed
    and then not used. *)
Definition isSystemCommand (h : Heap) (partArray : list PartRef) : bool :=
  match partArray with
  | p :: _ =>
      match text (h p) with
      | Some t => JS.truthy (Some t) && JS.startsWith "[SYSTEM_ANALYSIS_MODE]" t
      | None => false
      end
  | [] => false
  end.

(** [send(parts, turnComplete)] *)
Definition send (h : Heap) (ps : Turns) (turnComplete : bool) : M unit :=
  withSession (fun s => SessionSendClientContent s ps turnComplete) ;;
  let partArray :=
    match ps with
    | OnePart p => [p]
    | ManyParts l => l
    end in
  let _ := isSystemCommand h partArray in
  log "client.send" (LogClientContent partArray turnComplete).

(** [setAutoReconnect(enabled)] *)
Definition setAutoReconnect (enabled : bool) : M unit :=
  modify (set_autoReconnectEnabled enabled) ;;
  when (negb enabled) (modify (set_reconnectAttempts 0)) ;;
  perform (Console ConsoleLog).

Record ReconnectionStatus :=
  { enabled : bool;
    attempts : nat;
    maxAttempts : nat;
    hasResumptionHandle : bool }.

(** [getReconnectionStatus()] *)
Definition getReconnectionStatus (c : Client) : ReconnectionStatus :=
  {| enabled := autoReconnectEnabled c;
     attempts := reconnectAttempts c;
     maxAttempts := maxReconnectAttempts c;
     hasResumptionHandle := JS.truthy (resumptionHandle c) |}.

(** *** Inbound messages *)

(** The filter of the model turn:
    [p.inlineData && p.inlineData.mimeType?.startsWith("audio/pcm")]. *)
Definition isAudioPart (h : Heap) (p : PartRef) : bool :=
  match inlineData (h p) with
  | Some b =>
      match mimeType b with
      | Some mt => JS.startsWith "audio/pcm" mt
      | None => false
      end
  | None => false
  end.

(** [p.inlineData?.data] *)
Definition inlineBase64 (h : Heap) (p : PartRef) : option string :=
  match inlineData (h p) with
  | Some b => data b
  | None => None
  end.

Section Dispatch.

(** [base64ToArrayBuffer] of the utilities module, which turns the
    transport encoding of a buffer into its bytes; the client calls it as a
    function that returns a buffer for every encoding. *)
Variable base64ToArrayBuffer : string -> ArrayBuffer.

(** [base64s.forEach(...)] *)
Fixpoint forEachBase64 (base64s : list (option string)) : M unit :=
  match base64s with
  | [] => ret tt
  | b64 :: rest =>
      match b64 with
      | Some s =>
          when (JS.truthy (Some s))
            (let buf := base64ToArrayBuffer s in
             perform (Emit (EvAudio buf)) ;;
             log "server.audio"
               (LogText (String.append "buffer ("
                           (String.append (JS.showNat (List.length buf)) ")"))))
      | None => ret tt
      end ;;
      forEachBase64 rest
  end.

(** The [serverContent] branch of [onmessage]. *)
Definition onServerContent (h : Heap) (msg : LiveServerMessage)
           (sc : LiveServerContent) : M unit :=
  match interrupted sc with
  | Some _ =>
      log "server.content" (LogText "interrupted") ;;
      perform (Emit EvInterrupted)
  | None =>
      match turnComplete sc with
      | Some _ =>
          log "server.content" (LogText "turnComplete") ;;
          perform (Emit EvTurnComplete)
      | None => ret tt
      end ;;
      match modelTurn sc with
      | Some mt =>
          let ps := match parts mt with Some l => l | None => [] end in
          let audioParts := filter (isAudioPart h) ps in
          let base64s := map (inlineBase64 h) audioParts in
          let otherParts := JS.difference ps audioParts in
          forEachBase64 base64s ;;
          if Nat.eqb (List.length otherParts) 0 then ret tt
          else
            perform (Emit (EvContent otherParts)) ;;
            log "server.content" (LogServerMessage msg)
      | None => ret tt
      end
  end.

(** [onmessage(message)]; the method has no [await], so it runs to its
    end when called. *)
Definition onmessage (h : Heap) (msg : LiveServerMessage) : M unit :=
  match setupComplete msg with
  | Some _ =>
      log "server.send" (LogText "setupComplete") ;;
      perform (Emit EvSetupComplete)
  | None =>
  match goAway msg with
  | Some g =>
      log "server.goaway"
        (LogText (String.append "Connection terminating in "
                    (JS.show (timeLeft g)))) ;;
      perform (Console ConsoleLog) ;;
      c <- get ;;
      if autoReconnectEnabled c && JS.truthy (timeLeft g) then
        match JS.parseInt (JS.show (timeLeft g)) with
        | Some timeLeftMs =>
            perform (SetTimeout CbGoAwayReconnection
                       (Z.max 0 (timeLeftMs - 1000)))
        | None => ret tt
        end
      else ret tt
  | None =>
  match sessionResumptionUpdate msg with
  | Some resumptionUpdate =>
      if JS.truthyb (resumable resumptionUpdate)
         && JS.truthy (newHandle resumptionUpdate)
      then
        modify (set_resumptionHandle (newHandle resumptionUpdate)) ;;
        c <- get ;;
        log "server.resumption"
          (LogText (String.append "New resumption handle: "
                      (JS.show (resumptionHandle c)))) ;;
        perform (Console ConsoleLog)
      else ret tt
  | None =>
  match toolCall msg with
  | Some tc =>
      log "server.toolCall" (LogServerMessage msg) ;;
      perform (Emit (EvToolCall tc))
  | None =>
  match toolCallCancellation msg with
  | Some tc =>
      log "server.toolCallCancellation" (LogServerMessage msg) ;;
      perform (Emit (EvToolCallCancellation tc))
  | None =>
  match serverContent msg with
  | Some sc => onServerContent h msg sc
  | None => perform (Console ConsoleLog)
  end end end end end end.

(** *** The client as a transition system *)

(** Every entry point of the class: the public commands, the four
    transport callbacks, the two timer callbacks, and the two halves of
    the asynchronous methods around their [await]. *)
Inductive Op :=
| OpConnect (m : string) (cfg : LiveConnectConfig) (r : OpenResult)
| OpConnectBegin (m : string) (cfg : LiveConnectConfig)
| OpConnectResume (r : OpenResult)
| OpDisconnect
| OpOpen
| OpError (e : ErrorEvent)
| OpClose (e : CloseEvent)
| OpMessage (msg : LiveServerMessage)
| OpSendRealtimeInput (chunks : list Chunk)
| OpSendToolResponse (r : LiveClientToolResponse)
| OpSend (ps : Turns) (turnComplete : bool)
| OpSetAutoReconnect (enabled : bool)
| OpReconnectTimer (r : OpenResult)
| OpReconnectTimerBegin
| OpReconnectTimerResume (r : OpenResult)
| OpGoAwayTimer (r : OpenResult).

Definition ignore {A} (m : M A) : M unit := m ;; ret tt.

Definition step (h : Heap) (op : Op) : M unit :=
  match op with
  | OpConnect m cfg r => ignore (connect m cfg r)
  | OpConnectBegin m cfg => ignore (connectBegin m cfg)
  | OpConnectResume r => ignore (connectResume r)
  | OpDisconnect => ignore disconnect
  | OpOpen => onopen
  | OpError e => onerror e
  | OpClose e => onclose e
  | OpMessage msg => onmessage h msg
  | OpSendRealtimeInput chunks => sendRealtimeInput chunks
  | OpSendToolResponse r => sendToolResponse r
  | OpSend ps tc => send h ps tc
  | OpSetAutoReconnect b => setAutoReconnect b
  | OpReconnectTimer r => attemptReconnection r
  | OpReconnectTimerBegin => ignore attemptReconnectionBegin
  | OpReconnectTimerResume r => attemptReconnectionResume r
  | OpGoAwayTimer r => goAwayTimer r
  end.

(** A run of entry points, one after the other. *)
Fixpoint run (h : Heap) (ops : list Op) : M unit :=
  match ops with
  | [] => ret tt
  | op :: rest => step h op ;; run h rest
  end.

End Dispatch.

(** *** Views of a trace *)

(** The notifications other than log records, in order. *)
Definition notifications (t : Trace) : list Event :=
  flat_map (fun e => match fst e with
                     | Emit (EvLog _ _) => []
                     | Emit ev => [ev]
                     | _ => []
                     end) t.

(** The log records, in order. *)
Definition logs (t : Trace) : list (string * LogMessage) :=
  flat_map (fun e => match fst e with
                     | Emit (EvLog ty m) => [(ty, m)]
                     | _ => []
                     end) t.

(** The delays of the timers armed, in order. *)
Definition timers (t : Trace) : list (TimerCallback * Z) :=
  flat_map (fun e => match fst e with
                     | SetTimeout cb d => [(cb, d)]
                     | _ => []
                     end) t.

(** The media chunks handed to the transport, in order. *)
Definition sentChunks (t : Trace) : list Chunk :=
  flat_map (fun e => match fst e with
                     | SessionSendRealtimeInput _ ch => [ch]
                     | _ => []
                     end) t.

(** Every call made on the transport session, in order. *)
Definition transmissions (t : Trace) : list Effect :=
  filter (fun e => match e with
                   | SessionClose _
                   | SessionSendRealtimeInput _ _
                   | SessionSendToolResponse _ _
                   | SessionSendClientContent _ _ _ => true
                   | _ => false
                   end) (effects t).

End GenAILiveClient.

Import GenAILiveClient.

(** ** Derived notions used in the statements *)

(** The message reaches the [serverContent] branch of [onmessage]: none of
    the fields tested before it is set. *)
Definition asServerContent (msg : LiveServerMessage)
  : option LiveServerContent :=
  match setupComplete msg, goAway msg, sessionResumptionUpdate msg,
        toolCall msg, toolCallCancellation msg with
  | None, None, None, None, None => serverContent msg
  | _, _, _, _, _ => None
  end.

(** The message is handled as a model turn: it reaches the [serverContent]
    branch, is not an interruption, and has a [modelTurn] key.  The result
    is the array of parts the handler works on. *)
Definition asModelTurn (msg : LiveServerMessage) : option (list PartRef) :=
  match asServerContent msg with
  | Some sc =>
      match interrupted sc, modelTurn sc with
      | None, Some mt => Some (match parts mt with Some l => l | None => [] end)
      | _, _ => None
      end
  | None => None
  end.

(** Whether the [turnComplete] key accompanies the content. *)
Definition hasTurnComplete (msg : LiveServerMessage) : bool :=
  match asServerContent msg with
  | Some sc => match turnComplete sc with Some _ => true | None => false end
  | None => false
  end.

(** The transport encodings of the audio parts that carry data, in order. *)
Definition audioPayloads (h : Heap) (ps : list PartRef) : list string :=
  flat_map (fun p => match inlineBase64 h p with
                     | Some s => if JS.truthy (Some s) then [s] else []
                     | None => []
                     end)
           (filter (isAudioPart h) ps).

(** The parts that are not inline audio, in order. *)
Definition nonAudioParts (h : Heap) (ps : list PartRef) : list PartRef :=
  filter (fun p => negb (isAudioPart h p)) ps.

(** The chunks [sendRealtimeInput] hands over, as a function of the batch:
    everything up to and including the chunk at which both kinds of media
    have been seen. *)
Fixpoint forwarded (chunks : list Chunk) (hasAudio hasVideo : bool)
  : list Chunk :=
  match chunks with
  | [] => []
  | ch :: rest =>
      let a := JS.includes "audio" (chunkMime ch) || hasAudio in
      let v := JS.includes "image" (chunkMime ch) || hasVideo in
      ch :: (if a && v then [] else forwarded rest a v)
  end.

(** Reconnection attempts left before the ceiling. *)
Definition budget (c : Client) : nat :=
  maxReconnectAttempts c - reconnectAttempts c.

(** ** Sample values *)

Module Samples.

(** A stand-in for the decoder: the bytes of the text itself. *)
Definition rawBytes (s : string) : ArrayBuffer := list_byte_of_string s.

Definition liveClient : Client :=
  set_session (Some 7) (set_status connected initial).

Definition pendingClient : Client := set_status connecting initial.

(** The fields after five reconnection attempts that all failed to open. *)
Definition exhaustedClient : Client :=
  {| status := disconnected;
     session := None;
     model := Some "models/live";
     config := Some 1;
     resumptionHandle := None;
     autoReconnectEnabled := true;
     reconnectAttempts := 5;
     maxReconnectAttempts := 5;
     reconnectDelay := 1000 |}.

Definition normalClose : CloseEvent := {| code := 1000; reason := "" |}.
Definition abnormalClose : CloseEvent := {| code := 1006; reason := "lost" |}.

Definition audioChunk (d : string) : Chunk :=
  {| chunkMime := "audio/pcm;rate=16000"; chunkData := d |}.
Definition imageChunk (d : string) : Chunk :=
  {| chunkMime := "image/jpeg"; chunkData := d |}.

Definition audioPart (d : option string) : Part :=
  {| inlineData :=
       Some {| mimeType := Some "audio/pcm;rate=24000"; data := d |};
     text := None |}.
Definition textPart (t : string) : Part :=
  {| inlineData := None; text := Some t |}.

(** A store holding [audio(A)], [text(B)], [audio(C)] at 0, 1, 2, an audio
    part without data at 3, and text parts elsewhere. *)
Definition heap : Heap :=
  fun r =>
    match r with
    | 0 => audioPart (Some "QQ==")
    | 1 => textPart "B"
    | 2 => audioPart (Some "Qw==")
    | 3 => audioPart None
    | _ => textPart "other"
    end.

Definition contentMessage (sc : LiveServerContent) : LiveServerMessage :=
  {| setupComplete := None;
     goAway := None;
     sessionResumptionUpdate := None;
     toolCall := None;
     toolCallCancellation := None;
     serverContent := Some sc |}.

Definition modelTurnMessage (ps : list PartRef) : LiveServerMessage :=
  contentMessage {| interrupted := None;
                    turnComplete := None;
                    modelTurn := Some {| parts := Some ps |} |}.

Definition resumptionMessage (r : option bool) (hd : option string)
  : LiveServerMessage :=
  {| setupComplete := None;
     goAway := None;
     sessionResumptionUpdate := Some {| resumable := r; newHandle := hd |};
     toolCall := None;
     toolCallCancellation := None;
     serverContent := None |}.

Definition sampleResponse : FunctionResponse :=
  {| frId := "call-1"; frName := "render_altair"; frResponse := "ok" |}.

End Samples.

(** ** Further views of a trace and of a run *)

(** The transport opens requested, in order: model, config and the
    resumption handle presented. *)
Definition liveConnects (t : Trace)
  : list (string * LiveConnectConfig * option string) :=
  flat_map (fun e => match fst e with
                     | LiveConnect m cfg hd => [(m, cfg, hd)]
                     | _ => []
                     end) t.

(** The close notifications, in order. *)
Definition closeNotifications (t : Trace) : list CloseEvent :=
  flat_map (fun e => match fst e with
                     | Emit (EvClose ev) => [ev]
                     | _ => []
                     end) t.

(** The close events among the entry points of a run, in order. *)
Definition closeEvents (ops : list Op) : list CloseEvent :=
  flat_map (fun op => match op with
                      | OpClose ev => [ev]
                      | _ => []
                      end) ops.

(** The delays of the backoff timers armed, in order. *)
Definition backoffDelays (t : Trace) : list Z :=
  flat_map (fun x => match fst x with
                     | CbAttemptReconnection => [snd x]
                     | CbGoAwayReconnection => []
                     end) (timers t).

Definition mentionsAudio (ch : Chunk) : bool :=
  JS.includes "audio" (chunkMime ch).

Definition mentionsImage (ch : Chunk) : bool :=
  JS.includes "image" (chunkMime ch).

(** Both kinds of media occur among the chunks. *)
Definition bothKinds (chunks : list Chunk) : bool :=
  existsb mentionsAudio chunks && existsb mentionsImage chunks.

(** The category a batch is logged under, read off the whole batch. *)
Definition realtimeCategory (chunks : list Chunk) : string :=
  if bothKinds chunks then "audio + video"
  else if existsb mentionsAudio chunks then "audio"
  else if existsb mentionsImage chunks then "video"
  else "unknown".

(** One half of an asynchronous method, which leaves an [await] open or
    closes one. *)
Definition isHalf (op : Op) : bool :=
  match op with
  | OpConnectBegin _ _ | OpConnectResume _
  | OpReconnectTimerBegin | OpReconnectTimerResume _ => true
  | _ => false
  end.

(** The entry point is a call of [connect] (whole, or its first half). *)
Definition isConnectCall (op : Op) : bool :=
  match op with
  | OpConnect _ _ _ | OpConnectBegin _ _ => true
  | _ => false
  end.

Definition isMessage (op : Op) : bool :=
  match op with
  | OpMessage _ => true
  | _ => false
  end.

(** The status and the session handle agree: connected exactly when a
    session is held, and no open is pending. *)
Definition coherent (c : Client) : Prop :=
  status c <> connecting
  /\ (status c = connected <-> session c <> None).

(** The hand-overs of the loop of [sendRealtimeInput] for the chunks [l],
    whether or not a session is held. *)
Definition handOvers (c : Client) (l : list Chunk) : Trace :=
  match session c with
  | Some s => map (fun ch => (SessionSendRealtimeInput s ch, c)) l
  | None => []
  end.

(** The array [send] logs: a single part is wrapped. *)
Definition partArray (ps : Turns) : list PartRef :=
  match ps with
  | OnePart p => [p]
  | ManyParts l => l
  end.

(** The actions [onmessage] can perform: notifications other than open,
    error and close, console lines and the warning timer. *)
Definition messageEffect (e : Effect) : bool :=
  match e with
  | Emit (EvClose _) | Emit (EvError _) | Emit EvOpen => false
  | Emit _ => true
  | Console _ => true
  | SetTimeout CbGoAwayReconnection _ => true
  | _ => false
  end.

(** The session a transport call is made on. *)
Definition targetSession (e : Effect) : option Session :=
  match e with
  | SessionClose s
  | SessionSendRealtimeInput s _
  | SessionSendToolResponse s _
  | SessionSendClientContent s _ _ => Some s
  | _ => None
  end.

(** ** The callers in the control tray *)

Module ControlTray.

(** [onData(base64)], the listener of the audio recorder. *)
Definition onData (base64 : string) : M unit :=
  sendRealtimeInput
    [{| chunkMime := "audio/pcm;rate=16000"; chunkData := base64 |}].

(** The call [sendVideoFrame] makes once the frame is encoded. *)
Definition sendFrame (data : string) : M unit :=
  sendRealtimeInput [{| chunkMime := "image/jpeg"; chunkData := data |}].

End ControlTray.

(** ** The settings dialog *)

Module SettingsDialog.

(** [FunctionDeclaration]: the dialog reads [name] and writes
    [description]; the rest is carried along. *)
Record FunctionDeclaration :=
  { fdName : option string;
    fdDescription : option string;
    fdRest : nat }.

(** [Tool]: a tool with a [functionDeclarations] array, or any other tool. *)
Record Tool :=
  { toolFunctionDeclarations : option (list FunctionDeclaration);
    toolRest : nat }.

(** [PartUnion] *)
Inductive PartUnion :=
| PString (s : string)
| PPart (p : Part).

(** [ContentUnion]: a string, an array of parts, an object with a [parts]
    key ([None]: the key holds [undefined]), or another object (a single
    part, a content without [parts]). *)
Inductive ContentUnion :=
| CString (s : string)
| CArray (l : list PartUnion)
| CContent (ps : option (list Part))
| CPart (p : Part).

(** The fields of the connect config the dialog works on.  A heartbeat
    interval that is absent or [NaN] is [None]. *)
Record Config :=
  { cfgSystemInstruction : option ContentUnion;
    cfgTools : option (list Tool);
    cfgHeartbeatInterval : option Z;
    cfgRest : nat }.

Definition newline : string := String (ascii_of_nat 10) EmptyString.

(** [xs.join("\n")]: an [undefined] element is rendered empty. *)
Definition join (xs : list (option string)) : string :=
  String.concat newline
    (map (fun o => match o with Some s => s | None => "" end) xs).

(** The memo [functionDeclarations]. *)
Definition functionDeclarations (config : Config) : list FunctionDeclaration :=
  match cfgTools config with
  | None => []
  | Some ts =>
      let fdTools :=
        filter (fun t => match toolFunctionDeclarations t with
                         | Some _ => true
                         | None => false
                         end) ts in
      let arrays := map toolFunctionDeclarations fdTools in
      let kept :=
        filter (fun fc => match fc with Some _ => true | None => false end)
               arrays in
      flat_map (fun fc => match fc with Some l => l | None => [] end) kept
  end.

(** The memo [systemInstruction]. *)
Definition systemInstruction (config : Config) : string :=
  match cfgSystemInstruction config with
  | None => ""
  | Some (CString s) => if JS.truthy (Some s) then s else ""
  | Some (CArray l) =>
      join (map (fun p => match p with
                          | PString s => Some s
                          | PPart q => text q
                          end) l)
  | Some (CContent ps) =>
      match ps with
      | Some l =>
          let joined := join (map text l) in
          if JS.truthy (Some joined) then joined else ""
      | None => ""
      end
  | Some (CPart _) => ""
  end.

(** [updateConfig(event)]: the config handed to [setConfig] for the text
    of the event. *)
Definition updateConfig (config : Config) (value : string) : Config :=
  {| cfgSystemInstruction := Some (CString value);
     cfgTools := cfgTools config;
     cfgHeartbeatInterval := cfgHeartbeatInterval config;
     cfgRest := cfgRest config |}.

(** [fd.name === editedFdName] *)
Definition named (editedFdName : string) (fd : FunctionDeclaration) : bool :=
  match fdName fd with
  | Some n => String.eqb n editedFdName
  | None => false
  end.

Definition describe (editedFdName newDescription : string)
           (fd : FunctionDeclaration) : FunctionDeclaration :=
  if named editedFdName fd
  then {| fdName := fdName fd;
          fdDescription := Some newDescription;
          fdRest := fdRest fd |}
  else fd.

(** [updateFunctionDescription(editedFdName, newDescription)]: the config
    handed to [setConfig]. *)
Definition updateFunctionDescription (config : Config)
           (editedFdName newDescription : string) : Config :=
  {| cfgSystemInstruction := cfgSystemInstruction config;
     cfgTools :=
       Some (match cfgTools config with
             | Some ts =>
                 map (fun tool =>
                        match toolFunctionDeclarations tool with
                        | None => tool
                        | Some fds =>
                            {| toolFunctionDeclarations :=
                                 Some (map (describe editedFdName newDescription)
                                           fds);
                               toolRest := toolRest tool |}
                        end) ts
             | None => []
             end);
     cfgHeartbeatInterval := cfgHeartbeatInterval config;
     cfgRest := cfgRest config |}.

(** [n || 15] on a number that may be [NaN]. *)
Definition orFifteen (n : option Z) : Z :=
  match n with
  | Some v => if (v =? 0)%Z then 15%Z else v
  | None => 15%Z
  end.


(** The period of the heartbeat of the control tray, in milliseconds:
    [(config?.heartbeatInterval || 15) * 1000]. *)
Definition heartbeatInterval (config : option Config) : Z :=
  (orFifteen (match config with
              | Some cfg => cfgHeartbeatInterval cfg
              | None => None
              end) * 1000)%Z.

End SettingsDialog.

(** ** The tool-call handler of the graph component *)

Module Altair.

(** [fc.args], of which the handler reads [json_graph]. *)
Record Args := { json_graph : option string }.

(** [FunctionCall]: every field is optional in the SDK's type. *)
Record FunctionCall :=
  { fcId : option string;
    fcName : option string;
    fcArgs : option Args }.

(** [LiveServerToolCall] *)
Record ToolCall := { functionCalls : option (list FunctionCall) }.

(** The response built for a call; its [response] field is always
    [{ output: { success: true } }]. *)
Record Response := { respId : option string; respName : option string }.

(** [declaration.name] *)
Definition declarationName : string := "render_altair".

(** What a run of the handler leaves behind: it throws, or it returns with
    the [jsonString] of the component and, possibly, a timer that will hand
    the responses to [client.sendToolResponse]. *)
Inductive Outcome :=
| Threw
| Returned (jsonString : option string)
           (timer : option (Z * list Response)).

(** [onToolCall(toolCall)], run with the current [jsonString].  Reading
    [json_graph] off a call that has no [args] throws. *)
Definition onToolCall (toolCall : ToolCall) (jsonString : option string)
  : Outcome :=
  match functionCalls toolCall with
  | None => Returned jsonString None
  | Some calls =>
      let fc :=
        find (fun fc => match fcName fc with
                        | Some n => String.eqb n declarationName
                        | None => false
                        end) calls in
      let afterFind :=
        match fc with
        | Some found =>
            match fcArgs found with
            | Some args => Some (json_graph args)
            | None => None
            end
        | None => Some jsonString
        end in
      match afterFind with
      | None => Threw
      | Some str =>
          Returned str
            (if negb (Nat.eqb (List.length calls) 0)
             then Some (200%Z,
                        map (fun fc => {| respId := fcId fc;
                                          respName := fcName fc |}) calls)
             else None)
      end
  end.

End Altair.

(** ** Tactics *)

(** Reads of fields through the setters. *)
Ltac simpl_fields :=
  cbn [fst snd andb orb negb status session model config resumptionHandle
       autoReconnectEnabled reconnectAttempts maxReconnectAttempts
       reconnectDelay set_status set_session set_model set_config
       set_resumptionHandle set_autoReconnectEnabled set_reconnectAttempts].

(** Unfolds the monad down to pairs. *)
Ltac run_method :=
  cbv [bind ret get modify perform when log withSession ignore
       result final trace effects];
  simpl_fields.

(** Case analysis on every test the unfolded method still contains. *)
Ltac split_cases :=
  repeat (simpl_fields;
          match goal with
          | |- context [match ?x with _ => _ end] =>
              lazymatch type of x with
              | prod _ _ => fail
              | _ => destruct x eqn:?
              end
          end);
  simpl_fields.

(** Unfolds every method down to the monad. *)
Ltac unfold_methods :=
  unfold goAwayTimer, attemptReconnection, attemptReconnectionBegin,
    attemptReconnectionResume, connect, connectBegin, connectResume,
    disconnect, onopen, onerror, onclose, sendToolResponse, send,
    setAutoReconnect, scheduleReconnect.

(** Turns the boolean comparisons among the hypotheses into orders. *)
Ltac orders :=
  repeat match goal with
         | H : Nat.leb _ _ = true |- _ => apply Nat.leb_le in H
         | H : Nat.leb _ _ = false |- _ => apply Nat.leb_gt in H
         | H : Nat.ltb _ _ = true |- _ => apply Nat.ltb_lt in H
         | H : Nat.ltb _ _ = false |- _ => apply Nat.ltb_ge in H
         end.

(** ** Properties *)

(** *** Sanity of the primitives *)

Example parseInt_seconds : JS.parseInt "10s" = Some 10%Z.
Proof. reflexivity. Qed.

Example parseInt_nan : JS.parseInt "soon" = None.
Proof. reflexivity. Qed.

Example includes_audio : JS.includes "audio" "audio/pcm;rate=16000" = true.
Proof. reflexivity. Qed.

Example includes_image : JS.includes "image" "audio/pcm" = false.
Proof. reflexivity. Qed.

(** *** Proof support *)

Lemma bind_final {A B} (m : M A) (k : A -> M B) (c : Client) :
  final (bind m k c) = final (k (result (m c)) (final (m c))).
Proof.
  unfold bind, final, result.
  destruct (m c) as [[a c1] t1]; cbn.
  destruct (k a c1) as [[b c2] t2]; reflexivity.
Qed.

Lemma bind_trace {A B} (m : M A) (k : A -> M B) (c : Client) :
  trace (bind m k c) = trace (m c) ++ trace (k (result (m c)) (final (m c))).
Proof.
  unfold bind, final, result, trace.
  destruct (m c) as [[a c1] t1]; cbn.
  destruct (k a c1) as [[b c2] t2]; reflexivity.
Qed.

Lemma bind_result {A B} (m : M A) (k : A -> M B) (c : Client) :
  result (bind m k c) = result (k (result (m c)) (final (m c))).
Proof.
  unfold bind, final, result.
  destruct (m c) as [[a c1] t1]; cbn.
  destruct (k a c1) as [[b c2] t2]; reflexivity.
Qed.

Lemma timers_app (t1 t2 : Trace) : timers (t1 ++ t2) = timers t1 ++ timers t2.
Proof. apply flat_map_app. Qed.

Lemma notifications_app (t1 t2 : Trace) :
  notifications (t1 ++ t2) = notifications t1 ++ notifications t2.
Proof. apply flat_map_app. Qed.

Lemma sentChunks_app (t1 t2 : Trace) :
  sentChunks (t1 ++ t2) = sentChunks t1 ++ sentChunks t2.
Proof. apply flat_map_app. Qed.

(** *** The reconnection policy *)

(** Below the ceiling, [scheduleReconnect] arms one timer with the delay
    [reconnectDelay * 2 ^ reconnectAttempts] taken before the increment,
    and counts the attempt. *)
Lemma scheduleReconnect_below (c : Client) :
  reconnectAttempts c < maxReconnectAttempts c ->
  timers (trace (scheduleReconnect c))
    = [(CbAttemptReconnection,
        (reconnectDelay c * 2 ^ Z.of_nat (reconnectAttempts c))%Z)]
  /\ final (scheduleReconnect c)
     = set_reconnectAttempts (S (reconnectAttempts c)) c.
Proof.
  intros Hlt. unfold scheduleReconnect. run_method.
  destruct (Nat.leb_spec (maxReconnectAttempts c) (reconnectAttempts c));
    [lia|].
  cbn. split; reflexivity.
Qed.

(** At the ceiling it arms nothing and switches auto-reconnection off. *)
Lemma scheduleReconnect_exhausted (c : Client) :
  maxReconnectAttempts c <= reconnectAttempts c ->
  timers (trace (scheduleReconnect c)) = []
  /\ final (scheduleReconnect c) = set_autoReconnectEnabled false c.
Proof.
  intros Hle. unfold scheduleReconnect. run_method.
  destruct (Nat.leb_spec (maxReconnectAttempts c) (reconnectAttempts c));
    [|lia].
  cbn. split; reflexivity.
Qed.

(** A timer is armed exactly when some budget is left. *)
Lemma scheduleReconnect_arms_iff_budget (c : Client) :
  timers (trace (scheduleReconnect c)) <> [] <-> 0 < budget c.
Proof.
  unfold budget. split.
  - intros Hne.
    destruct (Nat.le_gt_cases (maxReconnectAttempts c) (reconnectAttempts c))
      as [Hle|Hlt].
    + destruct (scheduleReconnect_exhausted c Hle) as [Ht _]. congruence.
    + lia.
  - intros Hb. destruct (scheduleReconnect_below c) as [Ht _]; [lia|].
    rewrite Ht. discriminate.
Qed.

(** The default schedule. *)
Example default_delays :
  map (fun n => (reconnectDelay initial * 2 ^ Z.of_nat n)%Z) [0; 1; 2; 3; 4]
  = [1000; 2000; 4000; 8000; 16000]%Z.
Proof. reflexivity. Qed.

(** *** Commands *)

(** C8. [disconnect()] without an active session returns [false], leaves
    every field as it was and performs no action at all (so no close
    notification); with an active session it closes the transport, clears
    the session handle, sets the status to disconnected, emits one log
    record of type ["client.close"], and returns [true]. *)
Theorem disconnect_behaviour (c : Client) :
  (session c = None -> disconnect c = (false, c, []))
  /\ (forall s, session c = Some s ->
        result (disconnect c) = true
        /\ final (disconnect c) = set_status disconnected (set_session None c)
        /\ session (final (disconnect c)) = None
        /\ status (final (disconnect c)) = disconnected
        /\ effects (trace (disconnect c))
           = [SessionClose s;
              Emit (EvLog "client.close" (LogText "Disconnected"))]).
Proof.
  split.
  - intros Hs. unfold disconnect. run_method. rewrite Hs. reflexivity.
  - intros s Hs. unfold disconnect. run_method. rewrite Hs. cbn.
    repeat split; reflexivity.
Qed.

Lemma disconnect_behaviour_witness :
  disconnect initial = (false, initial, [])
  /\ result (disconnect Samples.liveClient) = true.
Proof.
  split.
  - apply (proj1 (disconnect_behaviour initial)). reflexivity.
  - apply (proj2 (disconnect_behaviour Samples.liveClient) 7). reflexivity.
Defined.

(** C9. [sendToolResponse] with an absent or empty list of function
    responses performs no action (nothing transmitted, nothing logged) and
    leaves the fields alone; with a non-empty list and a session present,
    the very list is handed to the session and the response is logged. *)
Theorem sendToolResponse_behaviour (tr : LiveClientToolResponse) (c : Client) :
  (functionResponses tr = None \/ functionResponses tr = Some [] ->
     sendToolResponse tr c = (tt, c, []))
  /\ (forall rs s,
        functionResponses tr = Some rs -> rs <> [] -> session c = Some s ->
        final (sendToolResponse tr c) = c
        /\ effects (trace (sendToolResponse tr c))
           = [SessionSendToolResponse s rs;
              Emit (EvLog "client.toolResponse" (LogToolResponse tr))]).
Proof.
  split.
  - intros [H|H]; unfold sendToolResponse; rewrite H; reflexivity.
  - intros rs s Hrs Hne Hs. unfold sendToolResponse. rewrite Hrs.
    destruct rs as [|r rs']; [congruence|]. run_method. cbn. rewrite Hs. cbn.
    split; reflexivity.
Qed.

Lemma sendToolResponse_behaviour_witness :
  sendToolResponse {| functionResponses := Some [] |} Samples.liveClient
    = (tt, Samples.liveClient, [])
  /\ effects (trace (sendToolResponse
                       {| functionResponses := Some [Samples.sampleResponse] |}
                       Samples.liveClient))
     = [SessionSendToolResponse 7 [Samples.sampleResponse];
        Emit (EvLog "client.toolResponse"
                (LogToolResponse
                   {| functionResponses := Some [Samples.sampleResponse] |}))].
Proof.
  split.
  - apply (proj1 (sendToolResponse_behaviour _ _)). right. reflexivity.
  - apply (proj2 (sendToolResponse_behaviour
                    {| functionResponses := Some [Samples.sampleResponse] |}
                    Samples.liveClient) [Samples.sampleResponse] 7).
    + reflexivity.
    + discriminate.
    + reflexivity.
Defined.

(** C10. [setAutoReconnect(false)] switches auto-reconnection off and
    resets the attempt counter to 0, so that switching it on again leaves
    the whole budget of [maxReconnectAttempts]; [setAutoReconnect(true)]
    switches it on and leaves the counter as it was. *)
Theorem setAutoReconnect_resets_counter (c : Client) :
  let off := final (setAutoReconnect false c) in
  let back := final (setAutoReconnect true off) in
  let on := final (setAutoReconnect true c) in
  off = set_reconnectAttempts 0 (set_autoReconnectEnabled false c)
  /\ autoReconnectEnabled off = false
  /\ reconnectAttempts off = 0
  /\ autoReconnectEnabled back = true
  /\ reconnectAttempts back = 0
  /\ budget back = maxReconnectAttempts c
  /\ on = set_autoReconnectEnabled true c
  /\ reconnectAttempts on = reconnectAttempts c.
Proof.
  unfold setAutoReconnect, budget. run_method. cbn.
  repeat split; try reflexivity. lia.
Qed.

(** *** Connecting *)

(** Whatever happened to the fields during the [await], a transport open
    that succeeds ends in status connected with a fresh attempt counter. *)
Lemma connectResume_opened (s : Session) (c : Client) :
  result (connectResume (Opened s) c) = true
  /\ final (connectResume (Opened s) c)
     = set_reconnectAttempts 0 (set_status connected (set_session (Some s) c))
  /\ trace (connectResume (Opened s) c) = [].
Proof. repeat split. Qed.

(** The guard of [connect]. *)
Lemma connect_rejected (m : string) (cfg : LiveConnectConfig) (r : OpenResult)
      (c : Client) :
  status c = connecting \/ status c = connected ->
  connect m cfg r c = (false, c, []).
Proof.
  intros [H|H]; unfold connect, connectBegin; run_method;
    rewrite H; reflexivity.
Qed.

(** C4. While the status is connecting or connected, [connect] returns
    [false], changes no field and performs no action; from status
    disconnected, when the transport open succeeds, it returns [true] with
    the status set to connected, the attempt counter reset to 0 and the new
    session stored. *)
Theorem connect_rejected_or_connected
        (m : string) (cfg : LiveConnectConfig) (c : Client) :
  (forall r, status c = connecting \/ status c = connected ->
     connect m cfg r c = (false, c, []))
  /\ (forall s, status c = disconnected ->
        result (connect m cfg (Opened s) c) = true
        /\ status (final (connect m cfg (Opened s) c)) = connected
        /\ reconnectAttempts (final (connect m cfg (Opened s) c)) = 0
        /\ session (final (connect m cfg (Opened s) c)) = Some s).
Proof.
  split.
  - intros r H. apply connect_rejected. exact H.
  - intros s H. unfold connect, connectBegin, connectResume. run_method.
    rewrite H. cbn. repeat split; reflexivity.
Qed.

Lemma connect_rejected_or_connected_witness :
  connect "models/live" 1 (Opened 8) Samples.pendingClient
    = (false, Samples.pendingClient, [])
  /\ status (final (connect "models/live" 1 (Opened 8) initial)) = connected.
Proof.
  split.
  - apply (proj1 (connect_rejected_or_connected
                    "models/live" 1 Samples.pendingClient)).
    left. reflexivity.
  - apply (proj2 (connect_rejected_or_connected "models/live" 1 initial) 8).
    reflexivity.
Defined.

(** A sequence of [connect] calls issued while the status is connecting or
    connected changes nothing, call after call. *)
Lemma connect_rejected_repeatedly (d : string -> ArrayBuffer) (h : Heap)
      (calls : list (string * LiveConnectConfig * OpenResult)) (c : Client) :
  status c = connecting \/ status c = connected ->
  run d h (map (fun x => OpConnect (fst (fst x)) (snd (fst x)) (snd x)) calls) c
  = (tt, c, []).
Proof.
  intros H. induction calls as [|[[m cfg] r] calls IH]; [reflexivity|].
  cbn [map run step fst snd]. unfold bind, ignore. unfold bind at 1.
  rewrite (connect_rejected m cfg r c H). cbn.
  rewrite IH. reflexivity.
Qed.

(** *** Closing *)

(** C3, as the code has it. A close event always leaves the status
    disconnected and the session handle cleared, and the close notification
    is the last action, performed on the fields in their final state, the
    only notification of the call.  No reconnection is armed when the code
    is 1000 or auto-reconnection is off.  When the code is not 1000 and
    auto-reconnection is on, one reconnection is armed, with the delay
    [reconnectDelay * 2 ^ reconnectAttempts], provided the attempt counter
    is below [maxReconnectAttempts]; at the ceiling nothing is armed and
    auto-reconnection is switched off. *)
Theorem onclose_schedules_below_ceiling (e : CloseEvent) (c : Client) :
  status (final (onclose e c)) = disconnected
  /\ session (final (onclose e c)) = None
  /\ (exists t,
        trace (onclose e c) = t ++ [(Emit (EvClose e), final (onclose e c))]
        /\ notifications t = [])
  /\ (code e = 1000%Z \/ autoReconnectEnabled c = false ->
        timers (trace (onclose e c)) = []
        /\ reconnectAttempts (final (onclose e c)) = reconnectAttempts c
        /\ autoReconnectEnabled (final (onclose e c)) = autoReconnectEnabled c)
  /\ (code e <> 1000%Z -> autoReconnectEnabled c = true ->
      reconnectAttempts c < maxReconnectAttempts c ->
        timers (trace (onclose e c))
          = [(CbAttemptReconnection,
              (reconnectDelay c * 2 ^ Z.of_nat (reconnectAttempts c))%Z)]
        /\ reconnectAttempts (final (onclose e c)) = S (reconnectAttempts c)
        /\ autoReconnectEnabled (final (onclose e c)) = true)
  /\ (code e <> 1000%Z -> autoReconnectEnabled c = true ->
      maxReconnectAttempts c <= reconnectAttempts c ->
        timers (trace (onclose e c)) = []
        /\ autoReconnectEnabled (final (onclose e c)) = false).
Proof.
  unfold onclose, scheduleReconnect. run_method.
  destruct (autoReconnectEnabled c) eqn:Hen;
    destruct (Z.eqb_spec (code e) 1000) as [Hc|Hc];
    simpl_fields;
    try destruct (Nat.leb_spec (maxReconnectAttempts c) (reconnectAttempts c))
      as [Hle|Hlt];
    cbn;
    (split; [reflexivity|]); (split; [reflexivity|]);
    (split; [match goal with
             | |- exists t, ?l = _ /\ _ => exists (removelast l)
             end; split; reflexivity|]);
    repeat split; intros; try reflexivity; try congruence; try lia;
    repeat match goal with H : _ \/ _ |- _ => destruct H end;
    try congruence.
Qed.

Lemma onclose_schedules_below_ceiling_witness :
  timers (trace (onclose Samples.normalClose Samples.liveClient)) = []
  /\ timers (trace (onclose Samples.abnormalClose Samples.liveClient))
     = [(CbAttemptReconnection, 1000%Z)]
  /\ autoReconnectEnabled
       (final (onclose Samples.abnormalClose Samples.exhaustedClient)) = false.
Proof.
  split; [|split].
  - destruct (onclose_schedules_below_ceiling
                Samples.normalClose Samples.liveClient)
      as (_ & _ & _ & Hquiet & _).
    apply Hquiet. left. reflexivity.
  - destruct (onclose_schedules_below_ceiling
                Samples.abnormalClose Samples.liveClient)
      as (_ & _ & _ & _ & Harm & _).
    apply Harm.
    + discriminate.
    + reflexivity.
    + cbn. lia.
  - destruct (onclose_schedules_below_ceiling
                Samples.abnormalClose Samples.exhaustedClient)
      as (_ & _ & _ & _ & _ & Hstop).
    apply Hstop.
    + discriminate.
    + reflexivity.
    + cbn. lia.
Defined.

(** C3, as stated, fails at the ceiling: the code is not 1000 and
    auto-reconnection is on, yet no reconnection is armed. *)
Lemma onclose_at_ceiling_arms_nothing :
  code Samples.abnormalClose <> 1000%Z
  /\ autoReconnectEnabled Samples.exhaustedClient = true
  /\ timers (trace (onclose Samples.abnormalClose Samples.exhaustedClient)) = []
  /\ List.length
       (timers (trace (onclose Samples.abnormalClose Samples.exhaustedClient)))
     <> 1.
Proof. repeat split; try discriminate; reflexivity. Qed.

(** *** Realtime input *)

(** With a session present, the loop hands over exactly the chunks of
    [forwarded], in order, and touches no field. *)
Lemma realtimeLoop_forwarded (s : Session) (c : Client) :
  session c = Some s ->
  forall chunks a v,
    final (realtimeLoop chunks a v c) = c
    /\ trace (realtimeLoop chunks a v c)
       = map (fun ch => (SessionSendRealtimeInput s ch, c))
           (forwarded chunks a v).
Proof.
  intros Hs. induction chunks as [|ch rest IH]; intros a v.
  - split; reflexivity.
  - cbn [realtimeLoop forwarded]. rewrite bind_final, bind_trace.
    assert (Hw : withSession (fun s0 => SessionSendRealtimeInput s0 ch) c
                 = (tt, c, [(SessionSendRealtimeInput s ch, c)])).
    { unfold withSession. run_method. rewrite Hs. reflexivity. }
    rewrite Hw. cbn [final result trace fst snd].
    destruct (JS.includes "audio" (chunkMime ch));
      destruct (JS.includes "image" (chunkMime ch));
      destruct a; destruct v; cbn [andb orb];
      try (split; reflexivity);
      destruct (IH true false) as [F1 T1];
      destruct (IH false true) as [F2 T2];
      destruct (IH false false) as [F3 T3];
      cbn [map app]; split; congruence.
Qed.

Lemma sentChunks_of_sends (s : Session) (c : Client) (l : list Chunk) :
  sentChunks (map (fun ch => (SessionSendRealtimeInput s ch, c)) l) = l.
Proof.
  induction l as [|x l IH]; [reflexivity|].
  cbn. f_equal. exact IH.
Qed.

(** What [sendRealtimeInput] transmits when a session is present. *)
Lemma sendRealtimeInput_forwarded
      (s : Session) (c : Client) (chunks : list Chunk) :
  session c = Some s ->
  sentChunks (trace (sendRealtimeInput chunks c)) = forwarded chunks false false
  /\ final (sendRealtimeInput chunks c) = c.
Proof.
  intros Hs. unfold sendRealtimeInput.
  rewrite bind_final, bind_trace.
  destruct (realtimeLoop_forwarded s c Hs chunks false false) as [F T].
  rewrite F, T.
  destruct (result (realtimeLoop chunks false false c)) as [a v].
  split; [|reflexivity].
  rewrite sentChunks_app. cbn. rewrite app_nil_r.
  apply sentChunks_of_sends.
Qed.

(** What is handed over is always an initial segment of the batch. *)
Lemma forwarded_prefix (chunks : list Chunk) (a v : bool) :
  exists dropped, chunks = forwarded chunks a v ++ dropped.
Proof.
  revert a v. induction chunks as [|ch rest IH]; intros a v.
  - exists []. reflexivity.
  - cbn [forwarded].
    destruct ((JS.includes "audio" (chunkMime ch) || a)
              && (JS.includes "image" (chunkMime ch) || v)).
    + exists rest. reflexivity.
    + destruct (IH (JS.includes "audio" (chunkMime ch) || a)
                   (JS.includes "image" (chunkMime ch) || v)) as [d Hd].
      exists d. cbn [app]. f_equal. exact Hd.
Qed.

(** A batch in which no chunk is an image goes through whole. *)
Lemma forwarded_without_image (chunks : list Chunk) (a : bool) :
  forallb (fun ch => negb (JS.includes "image" (chunkMime ch))) chunks = true ->
  forwarded chunks a false = chunks.
Proof.
  revert a. induction chunks as [|ch rest IH]; intros a H; [reflexivity|].
  cbn in H. apply andb_true_iff in H. destruct H as [Hi Hr].
  cbn [forwarded]. apply negb_true_iff in Hi. rewrite Hi.
  cbn [orb]. rewrite andb_false_r. f_equal. apply IH. exact Hr.
Qed.

(** A batch in which no chunk is audio goes through whole. *)
Lemma forwarded_without_audio (chunks : list Chunk) (v : bool) :
  forallb (fun ch => negb (JS.includes "audio" (chunkMime ch))) chunks = true ->
  forwarded chunks false v = chunks.
Proof.
  revert v. induction chunks as [|ch rest IH]; intros v H; [reflexivity|].
  cbn in H. apply andb_true_iff in H. destruct H as [Hi Hr].
  cbn [forwarded]. apply negb_true_iff in Hi. rewrite Hi.
  cbn [orb andb]. f_equal. apply IH. exact Hr.
Qed.

(** C1, at a batch of three chunks [audio, image, audio] with a session
    present: the loop leaves at the image chunk, where both kinds have been
    seen, and the third chunk is never handed to the transport. *)
Theorem sendRealtimeInput_stops_after_both_kinds :
  sentChunks
    (trace (sendRealtimeInput
              [Samples.audioChunk "a1"; Samples.imageChunk "v1";
               Samples.audioChunk "a2"]
              Samples.liveClient))
  = [Samples.audioChunk "a1"; Samples.imageChunk "v1"]
  /\ logs
       (trace (sendRealtimeInput
                 [Samples.audioChunk "a1"; Samples.imageChunk "v1";
                  Samples.audioChunk "a2"]
                 Samples.liveClient))
     = [("client.realtimeInput", LogText "audio + video")].
Proof. split; reflexivity. Qed.

(** *** Exhausting the reconnection budget *)

(** C2, on the path where each reconnection fails to open.  From a fresh
    client: a successful connect, an abnormal close, then five reconnection
    timers whose transport open fails.  The five timers are armed with 1000,
    2000, 4000, 8000 and 16000 ms and no sixth one is armed, but
    auto-reconnection is still on at the end: the failure path of [connect]
    tests the ceiling itself and never reaches the branch of
    [scheduleReconnect] that switches it off. *)
Theorem failed_reconnections_leave_auto_reconnect_on
        (d : string -> ArrayBuffer) (h : Heap) :
  let r := run d h [OpConnect "models/live" 1 (Opened 7);
                    OpClose Samples.abnormalClose;
                    OpReconnectTimer OpenFailed;
                    OpReconnectTimer OpenFailed;
                    OpReconnectTimer OpenFailed;
                    OpReconnectTimer OpenFailed;
                    OpReconnectTimer OpenFailed] initial in
  timers (trace r)
    = [(CbAttemptReconnection, 1000%Z); (CbAttemptReconnection, 2000%Z);
       (CbAttemptReconnection, 4000%Z); (CbAttemptReconnection, 8000%Z);
       (CbAttemptReconnection, 16000%Z)]
  /\ final r = Samples.exhaustedClient
  /\ reconnectAttempts (final r) = 5
  /\ autoReconnectEnabled (final r) = true.
Proof. vm_compute. repeat split. Qed.

(** The sibling path: when each attempt is cut short by an abnormal close
    that arrives while its transport open is still pending, the close after
    the fifth attempt finds the counter at the ceiling and switches
    auto-reconnection off. *)
Lemma abnormal_closes_switch_auto_reconnect_off
      (d : string -> ArrayBuffer) (h : Heap) :
  let r := run d h [OpConnect "models/live" 1 (Opened 7);
                    OpClose Samples.abnormalClose;
                    OpReconnectTimerBegin; OpClose Samples.abnormalClose;
                    OpReconnectTimerBegin; OpClose Samples.abnormalClose;
                    OpReconnectTimerBegin; OpClose Samples.abnormalClose;
                    OpReconnectTimerBegin; OpClose Samples.abnormalClose;
                    OpReconnectTimerBegin; OpClose Samples.abnormalClose]
             initial in
  timers (trace r)
    = [(CbAttemptReconnection, 1000%Z); (CbAttemptReconnection, 2000%Z);
       (CbAttemptReconnection, 4000%Z); (CbAttemptReconnection, 8000%Z);
       (CbAttemptReconnection, 16000%Z)]
  /\ reconnectAttempts (final r) = 5
  /\ autoReconnectEnabled (final r) = false.
Proof. vm_compute. repeat split. Qed.

(** A failed open at the ceiling: nothing armed, nothing switched off. *)
Lemma connectResume_failed_at_ceiling (c : Client) :
  maxReconnectAttempts c <= reconnectAttempts c ->
  timers (trace (connectResume OpenFailed c)) = []
  /\ final (connectResume OpenFailed c) = set_status disconnected c.
Proof.
  intros Hle. unfold connectResume. run_method.
  destruct (Nat.ltb_spec (reconnectAttempts c) (maxReconnectAttempts c));
    [lia|].
  rewrite andb_false_r. split; reflexivity.
Qed.

(** A failed open below the ceiling, with auto-reconnection on: the next
    attempt is armed with the delay of the current counter. *)
Lemma connectResume_failed_below (c : Client) :
  autoReconnectEnabled c = true ->
  reconnectAttempts c < maxReconnectAttempts c ->
  timers (trace (connectResume OpenFailed c))
    = [(CbAttemptReconnection,
        (reconnectDelay c * 2 ^ Z.of_nat (reconnectAttempts c))%Z)]
  /\ reconnectAttempts (final (connectResume OpenFailed c))
     = S (reconnectAttempts c).
Proof.
  intros Hen Hlt. unfold connectResume, scheduleReconnect. run_method.
  rewrite Hen.
  destruct (Nat.ltb_spec (reconnectAttempts c) (maxReconnectAttempts c));
    [|lia].
  simpl_fields.
  destruct (Nat.leb_spec (maxReconnectAttempts c) (reconnectAttempts c));
    [lia|].
  split; reflexivity.
Qed.

(** *** Model turns *)

(** On references, removing the audio parts with [difference] is filtering
    by the negated test, whether or not a reference occurs twice. *)
Lemma difference_audio (h : Heap) (ps : list PartRef) :
  JS.difference ps (filter (isAudioPart h) ps) = nonAudioParts h ps.
Proof.
  unfold JS.difference, nonAudioParts.
  apply filter_ext_in. intros x Hx. f_equal.
  destruct (isAudioPart h x) eqn:Ha.
  - apply existsb_exists. exists x. split.
    + apply filter_In. split; assumption.
    + apply Nat.eqb_refl.
  - destruct (existsb (Nat.eqb x) (filter (isAudioPart h) ps)) eqn:He;
      [|reflexivity].
    apply existsb_exists in He. destruct He as [y [Hy Hxy]].
    apply Nat.eqb_eq in Hxy. subst y.
    apply filter_In in Hy. destruct Hy as [_ Hy]. congruence.
Qed.

Section ModelTurn.

Variable base64ToArrayBuffer : string -> ArrayBuffer.
Variable h : Heap.

(** The loop over the encodings: one audio notification for every
    encoding that is present and not empty, and no field touched. *)
Lemma forEachBase64_spec (l : list (option string)) (c : Client) :
  final (forEachBase64 base64ToArrayBuffer l c) = c
  /\ notifications (trace (forEachBase64 base64ToArrayBuffer l c))
     = map (fun s => EvAudio (base64ToArrayBuffer s))
         (flat_map (fun o => match o with
                             | Some s => if JS.truthy (Some s) then [s] else []
                             | None => []
                             end) l).
Proof.
  revert c. induction l as [|o l IH]; intros c; [split; reflexivity|].
  cbn [forEachBase64 flat_map]. rewrite bind_final, bind_trace.
  rewrite notifications_app, map_app.
  destruct o as [s|].
  - destruct (JS.truthy (Some s)) eqn:Ht; run_method;
      destruct (IH c) as [IHf IHt]; unfold final, trace in IHf, IHt;
      (split; [exact IHf|]); rewrite IHt; reflexivity.
  - run_method. destruct (IH c) as [IHf IHt].
    unfold final, trace in IHf, IHt.
    split; [exact IHf|]. rewrite IHt. reflexivity.
Qed.

Lemma audioPayloads_map (ps : list PartRef) :
  flat_map (fun o => match o with
                     | Some s => if JS.truthy (Some s) then [s] else []
                     | None => []
                     end)
           (map (inlineBase64 h) (filter (isAudioPart h) ps))
  = audioPayloads h ps.
Proof.
  unfold audioPayloads.
  induction (filter (isAudioPart h) ps) as [|p l IH]; [reflexivity|].
  cbn [map flat_map]. rewrite IH. reflexivity.
Qed.

(** The notifications of the [serverContent] branch when the content is
    not an interruption and has a model turn. *)
Lemma onServerContent_notifications
      (msg : LiveServerMessage) (sc : LiveServerContent) (mt : Content)
      (c : Client) :
  interrupted sc = None ->
  modelTurn sc = Some mt ->
  let ps := match parts mt with Some l => l | None => [] end in
  notifications (trace (onServerContent base64ToArrayBuffer h msg sc c))
  = (match turnComplete sc with Some _ => [EvTurnComplete] | None => [] end)
      ++ map (fun s => EvAudio (base64ToArrayBuffer s)) (audioPayloads h ps)
      ++ (match nonAudioParts h ps with
          | [] => []
          | others => [EvContent others]
          end).
Proof.
  intros Hi Hm ps. unfold onServerContent. rewrite Hi, Hm.
  rewrite bind_trace, notifications_app. f_equal.
  - destruct (turnComplete sc); reflexivity.
  - rewrite bind_trace, notifications_app.
    fold ps. rewrite difference_audio.
    destruct (forEachBase64_spec
                (map (inlineBase64 h) (filter (isAudioPart h) ps))
                (final ((match turnComplete sc with
                         | Some _ =>
                             log "server.content" (LogText "turnComplete") ;;
                             perform (Emit EvTurnComplete)
                         | None => ret tt
                         end) c))) as [_ Ht].
    rewrite Ht, audioPayloads_map. f_equal.
    destruct (nonAudioParts h ps); reflexivity.
Qed.

Lemma onmessage_serverContent (msg : LiveServerMessage)
      (sc : LiveServerContent) :
  asServerContent msg = Some sc ->
  onmessage base64ToArrayBuffer h msg
  = onServerContent base64ToArrayBuffer h msg sc.
Proof.
  unfold asServerContent, onmessage.
  destruct (setupComplete msg); [discriminate|].
  destruct (goAway msg); [discriminate|].
  destruct (sessionResumptionUpdate msg); [discriminate|].
  destruct (toolCall msg); [discriminate|].
  destruct (toolCallCancellation msg); [discriminate|].
  intros ->. reflexivity.
Qed.

(** C5, as the code has it. For a message handled as a model turn over
    the parts [ps], the notifications are, in this order: the turn
    completion, if its key is present; one audio notification, carrying
    the decoded bytes, for each inline-audio part whose data is present
    and not empty, in the order of the parts; then, unless every part is
    inline audio, one content notification carrying exactly the other
    parts in their order.  An inline-audio part without data gives no
    notification and is still left out of the content. *)
Theorem modelTurn_notifications (msg : LiveServerMessage) (ps : list PartRef)
        (c : Client) :
  asModelTurn msg = Some ps ->
  notifications (trace (onmessage base64ToArrayBuffer h msg c))
  = (if hasTurnComplete msg then [EvTurnComplete] else [])
      ++ map (fun s => EvAudio (base64ToArrayBuffer s)) (audioPayloads h ps)
      ++ (match nonAudioParts h ps with
          | [] => []
          | others => [EvContent others]
          end).
Proof.
  unfold asModelTurn, hasTurnComplete.
  destruct (asServerContent msg) as [sc|] eqn:Hsc; [|discriminate].
  destruct (interrupted sc) eqn:Hi; [discriminate|].
  destruct (modelTurn sc) as [mt|] eqn:Hm; [|discriminate].
  intros [= <-].
  rewrite (onmessage_serverContent msg sc Hsc).
  rewrite (onServerContent_notifications msg sc mt c Hi Hm).
  destruct (turnComplete sc); reflexivity.
Qed.

(** C6, as the code has it. A message that reaches the [serverContent]
    branch, is not an interruption, has the [turnComplete] key and a model
    turn with at least one part that is not inline audio, gives both the
    turn-completion notification and, after the audio notifications, the
    content notification. *)
Theorem turnComplete_and_content_both_fire
        (msg : LiveServerMessage) (sc : LiveServerContent) (mt : Content)
        (c : Client) :
  asServerContent msg = Some sc ->
  interrupted sc = None ->
  turnComplete sc <> None ->
  modelTurn sc = Some mt ->
  let ps := match parts mt with Some l => l | None => [] end in
  nonAudioParts h ps <> [] ->
  let ns := notifications (trace (onmessage base64ToArrayBuffer h msg c)) in
  ns = EvTurnComplete
         :: map (fun s => EvAudio (base64ToArrayBuffer s)) (audioPayloads h ps)
         ++ [EvContent (nonAudioParts h ps)]
  /\ In EvTurnComplete ns
  /\ In (EvContent (nonAudioParts h ps)) ns.
Proof.
  intros Hsc Hi Ht Hm ps Hne ns.
  assert (E : ns = EvTurnComplete
                     :: map (fun s => EvAudio (base64ToArrayBuffer s))
                          (audioPayloads h ps)
                     ++ [EvContent (nonAudioParts h ps)]).
  { unfold ns. rewrite (onmessage_serverContent msg sc Hsc).
    rewrite (onServerContent_notifications msg sc mt c Hi Hm). fold ps.
    destruct (turnComplete sc); [|congruence].
    destruct (nonAudioParts h ps); [congruence|]. reflexivity. }
  split; [exact E|]. rewrite E. split.
  - left. reflexivity.
  - right. apply in_or_app. right. left. reflexivity.
Qed.

End ModelTurn.

Lemma modelTurn_notifications_witness :
  notifications
    (trace (onmessage Samples.rawBytes Samples.heap
              (Samples.modelTurnMessage [0; 1; 2]) Samples.liveClient))
  = [EvAudio (Samples.rawBytes "QQ=="); EvAudio (Samples.rawBytes "Qw==");
     EvContent [1]].
Proof.
  apply (modelTurn_notifications Samples.rawBytes Samples.heap
           (Samples.modelTurnMessage [0; 1; 2]) [0; 1; 2] Samples.liveClient).
  reflexivity.
Defined.

(** The two instances named in C5, for any decoder. *)
Example modelTurn_audio_text_audio (d : string -> ArrayBuffer) :
  notifications
    (trace (onmessage d Samples.heap
              (Samples.modelTurnMessage [0; 1; 2]) Samples.liveClient))
  = [EvAudio (d "QQ=="); EvAudio (d "Qw=="); EvContent [1]].
Proof. reflexivity. Qed.

Example modelTurn_only_audio (d : string -> ArrayBuffer) :
  notifications
    (trace (onmessage d Samples.heap
              (Samples.modelTurnMessage [0; 2]) Samples.liveClient))
  = [EvAudio (d "QQ=="); EvAudio (d "Qw==")].
Proof. reflexivity. Qed.

(** C5, as stated, fails on an inline-audio part that carries no data: the
    message is a model turn with one audio part, and no audio notification
    is given. *)
Lemma audio_part_without_data_gives_no_event :
  asModelTurn (Samples.modelTurnMessage [3]) = Some [3]
  /\ filter (isAudioPart Samples.heap) [3] = [3]
  /\ List.length (filter (isAudioPart Samples.heap) [3]) = 1
  /\ notifications
       (trace (onmessage Samples.rawBytes Samples.heap
                 (Samples.modelTurnMessage [3]) Samples.liveClient))
     = [].
Proof. repeat split. Qed.

Lemma turnComplete_and_content_both_fire_witness :
  In EvTurnComplete
     (notifications
        (trace (onmessage Samples.rawBytes Samples.heap
                  (Samples.contentMessage
                     {| interrupted := None;
                        turnComplete := Some true;
                        modelTurn := Some {| parts := Some [0; 1] |} |})
                  Samples.liveClient)))
  /\ In (EvContent [1])
        (notifications
           (trace (onmessage Samples.rawBytes Samples.heap
                     (Samples.contentMessage
                        {| interrupted := None;
                           turnComplete := Some true;
                           modelTurn := Some {| parts := Some [0; 1] |} |})
                     Samples.liveClient))).
Proof.
  apply (turnComplete_and_content_both_fire Samples.rawBytes Samples.heap
           (Samples.contentMessage
              {| interrupted := None;
                 turnComplete := Some true;
                 modelTurn := Some {| parts := Some [0; 1] |} |})
           {| interrupted := None;
              turnComplete := Some true;
              modelTurn := Some {| parts := Some [0; 1] |} |}
           {| parts := Some [0; 1] |}
           Samples.liveClient).
  - reflexivity.
  - reflexivity.
  - discriminate.
  - reflexivity.
  - discriminate.
Defined.

(** C6, as stated, fails when the content also has the [interrupted] key:
    the message has [turnComplete] and a model turn with a text part, and
    the interruption is the only notification. *)
Lemma interrupted_content_gives_neither :
  let sc := {| interrupted := Some true;
               turnComplete := Some true;
               modelTurn := Some {| parts := Some [1] |} |} in
  asServerContent (Samples.contentMessage sc) = Some sc
  /\ turnComplete sc <> None
  /\ nonAudioParts Samples.heap [1] = [1]
  /\ notifications
       (trace (onmessage Samples.rawBytes Samples.heap
                 (Samples.contentMessage sc) Samples.liveClient))
     = [EvInterrupted]
  /\ ~ In EvTurnComplete
         (notifications
            (trace (onmessage Samples.rawBytes Samples.heap
                      (Samples.contentMessage sc) Samples.liveClient)))
  /\ ~ In (EvContent [1])
         (notifications
            (trace (onmessage Samples.rawBytes Samples.heap
                      (Samples.contentMessage sc) Samples.liveClient))).
Proof.
  repeat split; try discriminate.
  - intros [H|[]]. discriminate H.
  - intros [H|[]]. discriminate H.
Qed.

(** *** The resumption handle *)

Lemma realtimeLoop_final (chunks : list Chunk) (a v : bool) (c : Client) :
  final (realtimeLoop chunks a v c) = c.
Proof.
  revert a v. induction chunks as [|ch rest IH]; intros a v; [reflexivity|].
  cbn [realtimeLoop]. rewrite bind_final.
  assert (Hw : final (withSession
                        (fun s0 => SessionSendRealtimeInput s0 ch) c) = c).
  { unfold withSession. run_method. destruct (session c); reflexivity. }
  rewrite Hw.
  match goal with
  | |- context [if ?b then _ else _] => destruct b
  end; [reflexivity|apply IH].
Qed.

Lemma sendRealtimeInput_final (chunks : list Chunk) (c : Client) :
  final (sendRealtimeInput chunks c) = c.
Proof.
  unfold sendRealtimeInput. rewrite bind_final, realtimeLoop_final.
  destruct (result (realtimeLoop chunks false false c)). reflexivity.
Qed.

Section Handle.

Variable base64ToArrayBuffer : string -> ArrayBuffer.
Variable h : Heap.

Lemma onServerContent_final (msg : LiveServerMessage)
      (sc : LiveServerContent) (c : Client) :
  final (onServerContent base64ToArrayBuffer h msg sc c) = c.
Proof.
  unfold onServerContent.
  destruct (interrupted sc); [reflexivity|].
  rewrite bind_final.
  assert (Ht : forall k : M unit,
             final ((match turnComplete sc with
                     | Some _ => k
                     | None => ret tt
                     end) c) = final (match turnComplete sc with
                                      | Some _ => k c
                                      | None => (tt, c, [])
                                      end)).
  { intros k. destruct (turnComplete sc); reflexivity. }
  rewrite Ht.
  assert (Hc : final (match turnComplete sc with
                      | Some _ =>
                          (log "server.content" (LogText "turnComplete") ;;
                           perform (Emit EvTurnComplete)) c
                      | None => (tt, c, [])
                      end) = c).
  { destruct (turnComplete sc); reflexivity. }
  rewrite Hc.
  destruct (modelTurn sc) as [mt|]; [|reflexivity].
  rewrite bind_final.
  rewrite (proj1 (forEachBase64_spec base64ToArrayBuffer _ c)).
  match goal with
  | |- context [if ?b then _ else _] => destruct b
  end; reflexivity.
Qed.

(** What [onmessage] does to the stored handle. *)
Lemma onmessage_handle (msg : LiveServerMessage) (c : Client) :
  resumptionHandle (final (onmessage base64ToArrayBuffer h msg c))
  = match setupComplete msg, goAway msg, sessionResumptionUpdate msg with
    | None, None, Some u =>
        if JS.truthyb (resumable u) && JS.truthy (newHandle u)
        then newHandle u
        else resumptionHandle c
    | _, _, _ => resumptionHandle c
    end.
Proof.
  unfold onmessage.
  destruct (setupComplete msg); [reflexivity|].
  destruct (goAway msg) as [g|].
  { run_method. split_cases; reflexivity. }
  destruct (sessionResumptionUpdate msg) as [u|].
  { run_method. split_cases; reflexivity. }
  destruct (toolCall msg); [reflexivity|].
  destruct (toolCallCancellation msg); [reflexivity|].
  destruct (serverContent msg) as [sc|]; [|reflexivity].
  rewrite onServerContent_final. reflexivity.
Qed.

(** Every entry point other than [onmessage] leaves the handle alone. *)
Lemma step_keeps_handle (op : Op) (c : Client) :
  (forall msg, op <> OpMessage msg) ->
  resumptionHandle (final (step base64ToArrayBuffer h op c))
  = resumptionHandle c.
Proof.
  intros Hop. destruct op; cbn [step];
    try (exfalso; eapply Hop; reflexivity);
    try (rewrite sendRealtimeInput_final; reflexivity);
    unfold goAwayTimer, attemptReconnection, attemptReconnectionBegin,
      attemptReconnectionResume, connect, connectBegin, connectResume,
      disconnect, onopen, onerror, onclose, sendToolResponse, send,
      setAutoReconnect, scheduleReconnect;
    run_method; split_cases; reflexivity.
Qed.

(** C7. Across any entry point the stored resumption handle either stays
    as it was, or the entry point is [onmessage] on a resumption update
    that reports [resumable] true and carries a non-empty new handle,
    which becomes the stored handle whatever was stored before.  Such an
    update, when it is the field the dispatch reaches, does overwrite the
    handle.  An update with [resumable] false leaves the handle as it was.
    A populated handle stays populated across every entry point: connect,
    disconnect, close and setAutoReconnect included. *)
Theorem resumptionHandle_written_only_by_update (op : Op) (c : Client) :
  let c' := final (step base64ToArrayBuffer h op c) in
  (resumptionHandle c' = resumptionHandle c
   \/ exists msg u hd,
        op = OpMessage msg
        /\ sessionResumptionUpdate msg = Some u
        /\ resumable u = Some true
        /\ newHandle u = Some hd
        /\ hd <> ""
        /\ resumptionHandle c' = Some hd)
  /\ (forall msg u hd,
        op = OpMessage msg ->
        setupComplete msg = None -> goAway msg = None ->
        sessionResumptionUpdate msg = Some u ->
        resumable u = Some true -> newHandle u = Some hd -> hd <> "" ->
        resumptionHandle c' = Some hd)
  /\ (forall msg u,
        op = OpMessage msg ->
        sessionResumptionUpdate msg = Some u ->
        resumable u = Some false ->
        resumptionHandle c' = resumptionHandle c)
  /\ (JS.truthy (resumptionHandle c) = true ->
      JS.truthy (resumptionHandle c') = true).
Proof.
  intros c'.
  assert (Hmsg : forall msg, op = OpMessage msg ->
            resumptionHandle c'
            = match setupComplete msg, goAway msg,
                    sessionResumptionUpdate msg with
              | None, None, Some u =>
                  if JS.truthyb (resumable u) && JS.truthy (newHandle u)
                  then newHandle u
                  else resumptionHandle c
              | _, _, _ => resumptionHandle c
              end).
  { intros msg ->. apply onmessage_handle. }
  assert (Hother : (forall msg, op <> OpMessage msg) ->
                   resumptionHandle c' = resumptionHandle c).
  { apply step_keeps_handle. }
  assert (Hnonempty : forall hd, JS.truthy (Some hd) = true -> hd <> "").
  { intros hd Ht ->. discriminate. }
  assert (Htruthy : forall hd, hd <> "" -> JS.truthy (Some hd) = true).
  { intros hd Hne. unfold JS.truthy. apply negb_true_iff.
    apply String.eqb_neq. exact Hne. }
  split; [|split; [|split]].
  - destruct op; try (left; apply Hother; discriminate).
    rewrite (Hmsg msg eq_refl).
    destruct (setupComplete msg); [left; reflexivity|].
    destruct (goAway msg); [left; reflexivity|].
    destruct (sessionResumptionUpdate msg) as [u|] eqn:Hu;
      [|left; reflexivity].
    destruct (resumable u) as [[|]|] eqn:Hr; cbn [JS.truthyb andb];
      try (left; reflexivity).
    destruct (newHandle u) as [hd|] eqn:Hn; [|left; reflexivity].
    destruct (JS.truthy (Some hd)) eqn:Ht; [|left; reflexivity].
    right. exists msg, u, hd. repeat split; auto.
  - intros msg u hd Hop Hs Hg Hu Hr Hn Hne.
    rewrite (Hmsg msg Hop), Hs, Hg, Hu, Hr, Hn.
    cbn [JS.truthyb andb]. rewrite (Htruthy hd Hne). reflexivity.
  - intros msg u Hop Hu Hr.
    rewrite (Hmsg msg Hop), Hu, Hr. cbn [JS.truthyb andb].
    destruct (setupComplete msg); [reflexivity|].
    destruct (goAway msg); reflexivity.
  - intros Hpop.
    destruct op; try (rewrite Hother; [exact Hpop|discriminate]).
    rewrite (Hmsg msg eq_refl).
    destruct (setupComplete msg); [exact Hpop|].
    destruct (goAway msg); [exact Hpop|].
    destruct (sessionResumptionUpdate msg) as [u|]; [|exact Hpop].
    destruct (JS.truthyb (resumable u)); cbn [andb]; [|exact Hpop].
    destruct (JS.truthy (newHandle u)) eqn:Ht; [exact Ht|exact Hpop].
Qed.

(** The same along any run of entry points. *)
Lemma run_keeps_handle_populated (ops : list Op) (c : Client) :
  JS.truthy (resumptionHandle c) = true ->
  JS.truthy (resumptionHandle (final (run base64ToArrayBuffer h ops c))) = true.
Proof.
  revert c. induction ops as [|op ops IH]; intros c Hpop; [exact Hpop|].
  cbn [run]. rewrite bind_final. apply IH.
  destruct op;
    try (rewrite step_keeps_handle; [exact Hpop|discriminate]).
  cbn [step]. rewrite onmessage_handle.
  destruct (setupComplete msg); [exact Hpop|].
  destruct (goAway msg); [exact Hpop|].
  destruct (sessionResumptionUpdate msg) as [u|]; [|exact Hpop].
  destruct (JS.truthyb (resumable u)); cbn [andb]; [|exact Hpop].
  destruct (JS.truthy (newHandle u)) eqn:Ht; [exact Ht|exact Hpop].
Qed.

End Handle.

Lemma resumptionHandle_written_only_by_update_witness :
  resumptionHandle
    (final (step Samples.rawBytes Samples.heap
              (OpMessage (Samples.resumptionMessage (Some true) (Some "h2")))
              (set_resumptionHandle (Some "h1") Samples.liveClient)))
  = Some "h2"
  /\ resumptionHandle
       (final (step Samples.rawBytes Samples.heap
                 (OpMessage
                    (Samples.resumptionMessage (Some false) (Some "h2")))
                 (set_resumptionHandle (Some "h1") Samples.liveClient)))
     = Some "h1"
  /\ JS.truthy
       (resumptionHandle
          (final (step Samples.rawBytes Samples.heap OpDisconnect
                    (set_resumptionHandle (Some "h1") Samples.liveClient))))
     = true.
Proof.
  split; [|split].
  - destruct (resumptionHandle_written_only_by_update
                Samples.rawBytes Samples.heap
                (OpMessage (Samples.resumptionMessage (Some true) (Some "h2")))
                (set_resumptionHandle (Some "h1") Samples.liveClient))
      as (_ & Hset & _).
    apply (Hset (Samples.resumptionMessage (Some true) (Some "h2"))
                {| resumable := Some true; newHandle := Some "h2" |});
      try reflexivity. discriminate.
  - destruct (resumptionHandle_written_only_by_update
                Samples.rawBytes Samples.heap
                (OpMessage (Samples.resumptionMessage (Some false) (Some "h2")))
                (set_resumptionHandle (Some "h1") Samples.liveClient))
      as (_ & _ & Hkeep & _).
    apply (Hkeep (Samples.resumptionMessage (Some false) (Some "h2"))
                 {| resumable := Some false; newHandle := Some "h2" |});
      reflexivity.
  - destruct (resumptionHandle_written_only_by_update
                Samples.rawBytes Samples.heap OpDisconnect
                (set_resumptionHandle (Some "h1") Samples.liveClient))
      as (_ & _ & _ & Hpop).
    apply Hpop. reflexivity.
Defined.

(** *** Auto-reconnection, once off, stays off *)

Lemma realtimeLoop_timers (chunks : list Chunk) (a v : bool) (c : Client) :
  timers (trace (realtimeLoop chunks a v c)) = [].
Proof.
  revert a v. induction chunks as [|ch rest IH]; intros a v; [reflexivity|].
  cbn [realtimeLoop]. rewrite bind_trace, timers_app.
  assert (Hw : final (withSession
                        (fun s0 => SessionSendRealtimeInput s0 ch) c) = c
               /\ timers (trace (withSession
                                   (fun s0 => SessionSendRealtimeInput s0 ch)
                                   c)) = []).
  { unfold withSession. run_method. destruct (session c); split; reflexivity. }
  destruct Hw as [Hf Ht]. rewrite Hf, Ht.
  match goal with
  | |- context [if ?b then _ else _] => destruct b
  end; [reflexivity|apply IH].
Qed.

Lemma sendRealtimeInput_timers (chunks : list Chunk) (c : Client) :
  timers (trace (sendRealtimeInput chunks c)) = [].
Proof.
  unfold sendRealtimeInput. rewrite bind_trace, timers_app, realtimeLoop_timers.
  destruct (result (realtimeLoop chunks false false c)). reflexivity.
Qed.

Section Disabled.

Variable base64ToArrayBuffer : string -> ArrayBuffer.
Variable h : Heap.

Lemma forEachBase64_timers (l : list (option string)) (c : Client) :
  timers (trace (forEachBase64 base64ToArrayBuffer l c)) = [].
Proof.
  revert c. induction l as [|o l IH]; intros c; [reflexivity|].
  cbn [forEachBase64]. rewrite bind_trace, timers_app.
  destruct o as [s|]; [destruct (JS.truthy (Some s))|];
    run_method; apply (IH c).
Qed.

Lemma onServerContent_timers (msg : LiveServerMessage)
      (sc : LiveServerContent) (c : Client) :
  timers (trace (onServerContent base64ToArrayBuffer h msg sc c)) = [].
Proof.
  unfold onServerContent.
  destruct (interrupted sc); [reflexivity|].
  rewrite bind_trace, timers_app.
  match goal with
  | |- timers (trace (?m c)) ++ _ = [] =>
      assert (H1 : timers (trace (m c)) = [] /\ final (m c) = c)
        by (destruct (turnComplete sc); split; reflexivity)
  end.
  destruct H1 as [H1 H2]. rewrite H1, H2. cbn [app].
  destruct (modelTurn sc) as [mt|]; [|reflexivity].
  rewrite bind_trace, timers_app, forEachBase64_timers.
  match goal with
  | |- context [if ?b then _ else _] => destruct b
  end; reflexivity.
Qed.

(** While auto-reconnection is off, no entry point arms a timer, and only
    [setAutoReconnect(true)] switches it back on. *)
Lemma step_while_disabled (op : Op) (c : Client) :
  autoReconnectEnabled c = false ->
  op <> OpSetAutoReconnect true ->
  autoReconnectEnabled (final (step base64ToArrayBuffer h op c)) = false
  /\ timers (trace (step base64ToArrayBuffer h op c)) = [].
Proof.
  intros Hoff Hop. destruct op; cbn [step].
  9: { rewrite sendRealtimeInput_final, sendRealtimeInput_timers.
       split; [exact Hoff|reflexivity]. }
  8: { unfold onmessage.
       destruct (setupComplete msg); [split; [exact Hoff|reflexivity]|].
       destruct (goAway msg) as [g|].
       { run_method. rewrite Hoff. simpl_fields.
         split; [exact Hoff|reflexivity]. }
       destruct (sessionResumptionUpdate msg) as [u|].
       { run_method. split_cases; split; solve [exact Hoff|reflexivity]. }
       destruct (toolCall msg); [split; [exact Hoff|reflexivity]|].
       destruct (toolCallCancellation msg); [split; [exact Hoff|reflexivity]|].
       destruct (serverContent msg) as [sc|];
         [|split; [exact Hoff|reflexivity]].
       rewrite (onServerContent_final base64ToArrayBuffer h),
         onServerContent_timers.
       split; [exact Hoff|reflexivity]. }
  all: try match goal with
           | |- context [setAutoReconnect ?b] => destruct b; [congruence|]
           end.
  all: unfold goAwayTimer, attemptReconnection, attemptReconnectionBegin,
         attemptReconnectionResume, connect, connectBegin, connectResume,
         disconnect, onopen, onerror, onclose, sendToolResponse, send,
         setAutoReconnect, scheduleReconnect;
    run_method;
    repeat (simpl_fields; rewrite ?Hoff; simpl_fields;
            match goal with
            | |- context [match ?x with _ => _ end] =>
                lazymatch type of x with
                | prod _ _ => fail
                | _ => destruct x eqn:?
                end
            end);
    simpl_fields; rewrite ?Hoff; split; solve [exact Hoff|reflexivity].
Qed.

(** Hence no run without [setAutoReconnect(true)] arms a timer once
    auto-reconnection is off. *)
Lemma run_while_disabled (ops : list Op) (c : Client) :
  autoReconnectEnabled c = false ->
  ~ In (OpSetAutoReconnect true) ops ->
  autoReconnectEnabled (final (run base64ToArrayBuffer h ops c)) = false
  /\ timers (trace (run base64ToArrayBuffer h ops c)) = [].
Proof.
  revert c. induction ops as [|op ops IH]; intros c Hoff Hno;
    [split; [exact Hoff|reflexivity]|].
  cbn [run]. rewrite bind_final, bind_trace, timers_app.
  destruct (step_while_disabled op c Hoff) as [Hf Ht].
  { intros ->. apply Hno. left. reflexivity. }
  destruct (IH (final (step base64ToArrayBuffer h op c)) Hf) as [Hf' Ht'].
  { intros Hin. apply Hno. right. exact Hin. }
  rewrite Ht, Ht'. split; [exact Hf'|reflexivity].
Qed.

End Disabled.

(** ** Further properties of the client *)

(** *** Outbound commands *)

Lemma existsb_mentionsAudio_cons (ch : Chunk) (rest : list Chunk) (a : bool) :
  (JS.includes "audio" (chunkMime ch) || a) || existsb mentionsAudio rest
  = a || existsb mentionsAudio (ch :: rest).
Proof.
  cbn [existsb]. unfold mentionsAudio at 2.
  destruct (JS.includes "audio" (chunkMime ch)), a; reflexivity.
Qed.

Lemma existsb_mentionsImage_cons (ch : Chunk) (rest : list Chunk) (v : bool) :
  (JS.includes "image" (chunkMime ch) || v) || existsb mentionsImage rest
  = v || existsb mentionsImage (ch :: rest).
Proof.
  cbn [existsb]. unfold mentionsImage at 2.
  destruct (JS.includes "image" (chunkMime ch)), v; reflexivity.
Qed.

(** The loop as a whole: its flags tell whether each kind occurs in the
    batch (the early exit is taken only once both are known to), it touches
    no field, and its only actions are the hand-overs, which need a
    session. *)
Lemma realtimeLoop_run (chunks : list Chunk) (a v : bool) (c : Client) :
  a && v = false ->
  realtimeLoop chunks a v c
  = ((a || existsb mentionsAudio chunks, v || existsb mentionsImage chunks),
     c,
     match session c with
     | Some s => map (fun ch => (SessionSendRealtimeInput s ch, c))
                     (forwarded chunks a v)
     | None => []
     end).
Proof.
  revert a v. induction chunks as [|ch rest IH]; intros a v Hav.
  - cbn. rewrite !orb_false_r. destruct (session c); reflexivity.
  - cbn [realtimeLoop forwarded].
    rewrite <- existsb_mentionsAudio_cons, <- existsb_mentionsImage_cons.
    assert (Ea : (if JS.includes "audio" (chunkMime ch) then true else a)
                 = JS.includes "audio" (chunkMime ch) || a)
      by (destruct (JS.includes "audio" (chunkMime ch)); reflexivity).
    assert (Ev : (if JS.includes "image" (chunkMime ch) then true else v)
                 = JS.includes "image" (chunkMime ch) || v)
      by (destruct (JS.includes "image" (chunkMime ch)); reflexivity).
    rewrite Ea, Ev.
    set (a' := JS.includes "audio" (chunkMime ch) || a).
    set (v' := JS.includes "image" (chunkMime ch) || v).
    unfold bind at 1. unfold withSession. run_method.
    destruct (a' && v') eqn:Hboth.
    + apply andb_true_iff in Hboth. destruct Hboth as [-> ->].
      destruct (session c); reflexivity.
    + pose proof (IH a' v' Hboth) as IH'.
      destruct (session c); cbn [fst snd]; rewrite IH'; reflexivity.
Qed.

Lemma logs_app (t1 t2 : Trace) : logs (t1 ++ t2) = logs t1 ++ logs t2.
Proof. apply flat_map_app. Qed.

Lemma handOvers_views (c : Client) (l : list Chunk) :
  logs (handOvers c l) = []
  /\ notifications (handOvers c l) = []
  /\ timers (handOvers c l) = [].
Proof.
  unfold handOvers. destruct (session c) as [s|]; [|repeat split].
  induction l as [|x l [IH1 [IH2 IH3]]]; [repeat split|].
  cbn. repeat split; assumption.
Qed.

(** [sendRealtimeInput] as a whole. *)
Lemma sendRealtimeInput_run (chunks : list Chunk) (c : Client) :
  sendRealtimeInput chunks c
  = (tt, c,
     handOvers c (forwarded chunks false false)
       ++ [(Emit (EvLog "client.realtimeInput"
                    (LogText (realtimeCategory chunks))), c)]).
Proof.
  unfold sendRealtimeInput, bind.
  rewrite (realtimeLoop_run chunks false false c eq_refl).
  reflexivity.
Qed.

(** X1. Whatever the batch and whether or not a session is held,
    [sendRealtimeInput] produces exactly one log record, of type
    ["client.realtimeInput"], whose category is the one of the whole batch:
    the early exit of the loop never changes what is logged.  It gives no
    other notification, arms no timer and changes no field. *)
Theorem sendRealtimeInput_logs_category_of_batch
        (chunks : list Chunk) (c : Client) :
  logs (trace (sendRealtimeInput chunks c))
  = [("client.realtimeInput", LogText (realtimeCategory chunks))]
  /\ notifications (trace (sendRealtimeInput chunks c)) = []
  /\ timers (trace (sendRealtimeInput chunks c)) = []
  /\ final (sendRealtimeInput chunks c) = c.
Proof.
  rewrite sendRealtimeInput_run. cbn [trace final fst snd].
  rewrite logs_app, notifications_app, timers_app.
  destruct (handOvers_views c (forwarded chunks false false)) as [H1 [H2 H3]].
  rewrite H1, H2, H3. repeat split.
Qed.

(** X2. Without a session the three commands hand nothing to a transport
    and change no field, yet each still writes its log record: the category
    of the batch, the turns as an array, the tool response (when it has
    function responses). *)
Theorem commands_without_session_only_log
        (h : Heap) (chunks : list Chunk) (ps : Turns) (turnComplete : bool)
        (tr : LiveClientToolResponse) (c : Client) :
  session c = None ->
  sendRealtimeInput chunks c
  = (tt, c, [(Emit (EvLog "client.realtimeInput"
                      (LogText (realtimeCategory chunks))), c)])
  /\ send h ps turnComplete c
     = (tt, c, [(Emit (EvLog "client.send"
                         (LogClientContent (partArray ps) turnComplete)), c)])
  /\ (forall rs, functionResponses tr = Some rs -> rs <> [] ->
        sendToolResponse tr c
        = (tt, c, [(Emit (EvLog "client.toolResponse" (LogToolResponse tr)),
                    c)])).
Proof.
  intros Hs. split; [|split].
  - rewrite sendRealtimeInput_run. unfold handOvers. rewrite Hs. reflexivity.
  - unfold send. run_method. rewrite Hs. reflexivity.
  - intros rs Hrs Hne. unfold sendToolResponse. rewrite Hrs.
    destruct rs as [|r rs]; [congruence|]. run_method. cbn.
    rewrite Hs. reflexivity.
Qed.

Lemma commands_without_session_only_log_witness :
  effects (trace (send Samples.heap (OnePart 1) true initial))
  = [Emit (EvLog "client.send" (LogClientContent [1] true))]
  /\ transmissions
       (trace (sendToolResponse
                 {| functionResponses := Some [Samples.sampleResponse] |}
                 initial))
     = [].
Proof.
  destruct (commands_without_session_only_log
              Samples.heap []
              (OnePart 1) true
              {| functionResponses := Some [Samples.sampleResponse] |}
              initial eq_refl) as (_ & Hsend & Htool).
  split.
  - rewrite Hsend. reflexivity.
  - rewrite (Htool [Samples.sampleResponse] eq_refl); [reflexivity|].
    discriminate.
Defined.

(** With a session, [send] hands over the turns in the shape it was given
    them (a single part is not wrapped) and logs them as an array. *)
Lemma send_with_session (h : Heap) (ps : Turns) (turnComplete : bool)
      (s : Session) (c : Client) :
  session c = Some s ->
  send h ps turnComplete c
  = (tt, c, [(SessionSendClientContent s ps turnComplete, c);
             (Emit (EvLog "client.send"
                      (LogClientContent (partArray ps) turnComplete)), c)]).
Proof. intros Hs. unfold send. run_method. rewrite Hs. reflexivity. Qed.

Lemma firstn_flags (ch : Chunk) (rest : list Chunk) (a v : bool) (m : nat) :
  (a || existsb mentionsAudio (firstn (S m) (ch :: rest)))
  && (v || existsb mentionsImage (firstn (S m) (ch :: rest)))
  = ((JS.includes "audio" (chunkMime ch) || a)
     || existsb mentionsAudio (firstn m rest))
    && ((JS.includes "image" (chunkMime ch) || v)
        || existsb mentionsImage (firstn m rest)).
Proof.
  cbn [firstn].
  rewrite existsb_mentionsAudio_cons, existsb_mentionsImage_cons.
  reflexivity.
Qed.

(** The batch goes through whole exactly when no proper, non-empty initial
    segment already shows both kinds of media. *)
Lemma forwarded_whole_iff (chunks : list Chunk) (a v : bool) :
  forwarded chunks a v = chunks
  <-> (forall n, 0 < n < List.length chunks ->
         (a || existsb mentionsAudio (firstn n chunks))
         && (v || existsb mentionsImage (firstn n chunks)) = false).
Proof.
  revert a v. induction chunks as [|ch rest IH]; intros a v.
  - split; [intros _ n Hn; cbn in Hn; lia|reflexivity].
  - cbn [forwarded List.length].
    set (a' := JS.includes "audio" (chunkMime ch) || a).
    set (v' := JS.includes "image" (chunkMime ch) || v).
    destruct (a' && v') eqn:Hboth.
    + split.
      * intros Heq. injection Heq as Heq. subst rest.
        intros n Hn. cbn in Hn. lia.
      * intros Hall. destruct rest as [|x rest']; [reflexivity|].
        specialize (Hall 1). cbn [List.length] in Hall.
        rewrite (firstn_flags ch (x :: rest') a v 0) in Hall.
        cbn [firstn existsb] in Hall. rewrite !orb_false_r in Hall.
        fold a' v' in Hall. rewrite Hboth in Hall.
        assert (true = false) by (apply Hall; lia). discriminate.
    + split.
      * intros Heq. injection Heq as Heq.
        intros n Hn. destruct n as [|m]; [lia|].
        rewrite firstn_flags. fold a' v'.
        destruct m as [|m'].
        -- cbn [firstn existsb]. rewrite !orb_false_r. exact Hboth.
        -- apply (proj1 (IH a' v') Heq). lia.
      * intros Hall. f_equal. apply (proj2 (IH a' v')).
        intros m Hm. specialize (Hall (S m)).
        rewrite firstn_flags in Hall. fold a' v' in Hall.
        apply Hall. lia.
Qed.

(** X3. With a session, [sendRealtimeInput] hands over the whole batch, in
    order, exactly when no proper, non-empty initial segment of the batch
    already shows both kinds of media; in particular a batch of one chunk,
    as the audio recorder and the frame grabber of the control tray send,
    always goes through. *)
Theorem sendRealtimeInput_whole_batch_iff
        (s : Session) (c : Client) (chunks : list Chunk) :
  session c = Some s ->
  (sentChunks (trace (sendRealtimeInput chunks c)) = chunks
   <-> (forall n, 0 < n < List.length chunks ->
          bothKinds (firstn n chunks) = false))
  /\ (List.length chunks <= 1 ->
      sentChunks (trace (sendRealtimeInput chunks c)) = chunks).
Proof.
  intros Hs.
  assert (Hsent : sentChunks (trace (sendRealtimeInput chunks c))
                  = forwarded chunks false false).
  { rewrite sendRealtimeInput_run. cbn [trace snd].
    rewrite sentChunks_app. unfold handOvers. rewrite Hs.
    rewrite sentChunks_of_sends. cbn. apply app_nil_r. }
  rewrite Hsent.
  assert (Hiff : forwarded chunks false false = chunks
                 <-> (forall n, 0 < n < List.length chunks ->
                        bothKinds (firstn n chunks) = false)).
  { apply (forwarded_whole_iff chunks false false). }
  split; [exact Hiff|].
  intros Hlen. apply (proj2 Hiff). intros n Hn. lia.
Qed.

Lemma sendRealtimeInput_whole_batch_iff_witness :
  sentChunks (trace (ControlTray.onData "UklGRg==" Samples.liveClient))
  = [{| chunkMime := "audio/pcm;rate=16000"; chunkData := "UklGRg==" |}]
  /\ sentChunks (trace (ControlTray.sendFrame "/9j/4A==" Samples.liveClient))
     = [{| chunkMime := "image/jpeg"; chunkData := "/9j/4A==" |}].
Proof.
  split.
  - apply (proj2 (sendRealtimeInput_whole_batch_iff
                    7 Samples.liveClient
                    [{| chunkMime := "audio/pcm;rate=16000";
                        chunkData := "UklGRg==" |}] eq_refl)).
    cbn. lia.
  - apply (proj2 (sendRealtimeInput_whole_batch_iff
                    7 Samples.liveClient
                    [{| chunkMime := "image/jpeg";
                        chunkData := "/9j/4A==" |}] eq_refl)).
    cbn. lia.
Defined.

(** *** Termination warnings *)



(** X5. The callback of the warning timer never reconnects: whatever the
    fields and however the transport would answer, it changes no field,
    requests no transport open, arms no timer and gives no notification.
    It acts only while the status is connected, and then the [connect] it
    reaches through [attemptReconnection] is turned away by the status
    guard. *)
Theorem goAwayTimer_never_reconnects (r : OpenResult) (c : Client) :
  final (goAwayTimer r c) = c
  /\ liveConnects (trace (goAwayTimer r c)) = []
  /\ timers (trace (goAwayTimer r c)) = []
  /\ notifications (trace (goAwayTimer r c)) = []
  /\ logs (trace (goAwayTimer r c)) = [].
Proof.
  unfold goAwayTimer, attemptReconnection, attemptReconnectionBegin,
    attemptReconnectionResume, connectBegin, connectResume.
  run_method.
  destruct (Status_eqb (status c) connected) eqn:Hst; [|repeat split].
  simpl_fields.
  destruct (config c); [|repeat split].
  destruct (model c) as [m|]; [|repeat split].
  destruct (JS.truthy (Some m)); simpl_fields; [|repeat split].
  rewrite Hst. simpl_fields. repeat split.
Qed.

(** *** Runs *)

Lemma run_nil (d : string -> ArrayBuffer) (h : Heap) (c : Client) :
  run d h [] c = (tt, c, []).
Proof. reflexivity. Qed.

Lemma run_cons_final (d : string -> ArrayBuffer) (h : Heap)
      (op : Op) (ops : list Op) (c : Client) :
  final (run d h (op :: ops) c) = final (run d h ops (final (step d h op c))).
Proof.
  cbn [run]. exact (bind_final (step d h op) (fun _ => run d h ops) c).
Qed.

Lemma run_cons_trace (d : string -> ArrayBuffer) (h : Heap)
      (op : Op) (ops : list Op) (c : Client) :
  trace (run d h (op :: ops) c)
  = trace (step d h op c) ++ trace (run d h ops (final (step d h op c))).
Proof.
  cbn [run]. exact (bind_trace (step d h op) (fun _ => run d h ops) c).
Qed.

Lemma ignore_final {A} (m : M A) (c : Client) :
  final (ignore m c) = final (m c).
Proof.
  unfold ignore, bind, ret, final. destruct (m c) as [[a c1] t1]. reflexivity.
Qed.

Lemma ignore_trace {A} (m : M A) (c : Client) :
  trace (ignore m c) = trace (m c).
Proof.
  unfold ignore, bind, ret, trace. destruct (m c) as [[a c1] t1].
  cbn. apply app_nil_r.
Qed.

(** *** Reconnecting *)

(** The first half of [connect] when the guard lets it through. *)
Lemma connectBegin_from_disconnected
      (m : string) (cfg : LiveConnectConfig) (c : Client) :
  status c = disconnected ->
  connectBegin m cfg c
  = (true,
     set_model (Some m) (set_config (Some cfg) (set_status connecting c)),
     [(LiveConnect m cfg
         (if JS.truthy (resumptionHandle c)
          then resumptionHandle c else None),
       set_model (Some m) (set_config (Some cfg) (set_status connecting c)))]).
Proof.
  intros Hst. unfold connectBegin. run_method. rewrite Hst. reflexivity.
Qed.

(** X6. From status disconnected, with a config and a non-empty model
    stored, a reconnection whose transport open succeeds requests one open
    with the stored model, the stored config and the stored resumption
    handle, ends connected on the new session with the attempt counter
    back at 0 and the stored model and config as they were, and gives
    exactly one notification, the setup completion.  Without a stored
    config, or with no model or an empty one, it does nothing but a console
    error. *)
Theorem attemptReconnection_reuses_stored_identity
        (s : Session) (c : Client) :
  (forall cfg m,
     status c = disconnected -> config c = Some cfg -> model c = Some m ->
     m <> "" ->
     final (attemptReconnection (Opened s) c)
     = set_reconnectAttempts 0 (set_status connected (set_session (Some s) c))
     /\ liveConnects (trace (attemptReconnection (Opened s) c))
        = [(m, cfg, if JS.truthy (resumptionHandle c)
                    then resumptionHandle c else None)]
     /\ notifications (trace (attemptReconnection (Opened s) c))
        = [EvSetupComplete])
  /\ (forall r,
        config c = None \/ JS.truthy (model c) = false ->
        attemptReconnection r c = (tt, c, [(Console ConsoleError, c)])).
Proof.
  split.
  - intros cfg m Hst Hcfg Hm Hne.
    assert (Ht : JS.truthy (Some m) = true).
    { unfold JS.truthy. apply negb_true_iff. apply String.eqb_neq. exact Hne. }
    unfold attemptReconnection, attemptReconnectionBegin,
      attemptReconnectionResume, connectBegin, connectResume.
    run_method. rewrite Hcfg, Hm, Ht. simpl_fields. rewrite Hst.
    cbn. destruct c; cbn in *. subst. repeat split.
  - intros r H.
    unfold attemptReconnection, attemptReconnectionBegin. run_method.
    destruct H as [H|H].
    + rewrite H. reflexivity.
    + destruct (config c); [|reflexivity].
      destruct (model c) as [m|]; [|reflexivity].
      rewrite H. reflexivity.
Qed.

Lemma attemptReconnection_reuses_stored_identity_witness :
  liveConnects
    (trace (attemptReconnection (Opened 9)
              (set_resumptionHandle (Some "h1") Samples.exhaustedClient)))
  = [("models/live", 1, Some "h1")]
  /\ attemptReconnection OpenFailed initial
     = (tt, initial, [(Console ConsoleError, initial)]).
Proof.
  split.
  - destruct (attemptReconnection_reuses_stored_identity
                9 (set_resumptionHandle (Some "h1") Samples.exhaustedClient))
      as [Hok _].
    apply (Hok 1 "models/live"); try reflexivity. discriminate.
  - destruct (attemptReconnection_reuses_stored_identity 9 initial)
      as [_ Hmiss].
    apply Hmiss. left. reflexivity.
Defined.

(** X7. From status disconnected, a [connect] whose transport open fails
    returns [false] with the status back at disconnected, the model and
    config of the call stored and the session handle as it was; it arms one
    backoff timer, with the delay of the current counter, when
    auto-reconnection is on and the counter is below the ceiling, and none
    otherwise. *)
Theorem connect_failure_backs_off
        (m : string) (cfg : LiveConnectConfig) (c : Client) :
  status c = disconnected ->
  result (connect m cfg OpenFailed c) = false
  /\ status (final (connect m cfg OpenFailed c)) = disconnected
  /\ session (final (connect m cfg OpenFailed c)) = session c
  /\ model (final (connect m cfg OpenFailed c)) = Some m
  /\ config (final (connect m cfg OpenFailed c)) = Some cfg
  /\ timers (trace (connect m cfg OpenFailed c))
     = (if autoReconnectEnabled c
           && Nat.ltb (reconnectAttempts c) (maxReconnectAttempts c)
        then [(CbAttemptReconnection,
               (reconnectDelay c * 2 ^ Z.of_nat (reconnectAttempts c))%Z)]
        else []).
Proof.
  intros Hst. unfold connect, bind.
  rewrite (connectBegin_from_disconnected m cfg c Hst).
  unfold connectResume, scheduleReconnect. run_method.
  destruct (autoReconnectEnabled c); simpl_fields; [|repeat split].
  destruct (Nat.ltb_spec (reconnectAttempts c) (maxReconnectAttempts c))
    as [Hlt|Hge]; simpl_fields; [|repeat split].
  destruct (Nat.leb_spec (maxReconnectAttempts c) (reconnectAttempts c));
    [lia|]. repeat split.
Qed.

Lemma connect_failure_backs_off_witness :
  timers (trace (connect "models/live" 1 OpenFailed initial))
  = [(CbAttemptReconnection, 1000%Z)].
Proof.
  destruct (connect_failure_backs_off "models/live" 1 initial eq_refl)
    as (_ & _ & _ & _ & _ & Ht).
  exact Ht.
Defined.

(** What [onclose] does to the fields and which timers it arms. *)
Lemma onclose_run (e : CloseEvent) (c : Client) :
  let closed := set_session None (set_status disconnected c) in
  final (onclose e c)
  = (if autoReconnectEnabled c && negb (code e =? 1000)%Z
     then if Nat.leb (maxReconnectAttempts c) (reconnectAttempts c)
          then set_autoReconnectEnabled false closed
          else set_reconnectAttempts (S (reconnectAttempts c)) closed
     else closed)
  /\ timers (trace (onclose e c))
     = (if autoReconnectEnabled c && negb (code e =? 1000)%Z
        then if Nat.leb (maxReconnectAttempts c) (reconnectAttempts c)
             then []
             else [(CbAttemptReconnection,
                    (reconnectDelay c
                     * 2 ^ Z.of_nat (reconnectAttempts c))%Z)]
        else []).
Proof.
  unfold onclose, scheduleReconnect. run_method.
  destruct (autoReconnectEnabled c && negb (code e =? 1000)%Z);
    simpl_fields; [|split; reflexivity].
  destruct (Nat.leb (maxReconnectAttempts c) (reconnectAttempts c));
    split; reflexivity.
Qed.

(** X8. After any successful connect the backoff starts afresh: with
    auto-reconnection on and a positive ceiling, an abnormal close that
    follows a successful connect arms one timer with the base delay,
    whatever the attempt counter was before. *)
Theorem backoff_restarts_after_success
        (d : string -> ArrayBuffer) (h : Heap)
        (m : string) (cfg : LiveConnectConfig) (s : Session)
        (e : CloseEvent) (c : Client) :
  status c = disconnected ->
  autoReconnectEnabled c = true ->
  0 < maxReconnectAttempts c ->
  code e <> 1000%Z ->
  timers (trace (run d h [OpConnect m cfg (Opened s); OpClose e] c))
  = [(CbAttemptReconnection, reconnectDelay c)]
  /\ reconnectAttempts
       (final (run d h [OpConnect m cfg (Opened s); OpClose e] c)) = 1.
Proof.
  intros Hst Hen Hmax Hcode.
  rewrite !run_cons_final, !run_cons_trace, !run_nil. cbn [step].
  rewrite ignore_final, ignore_trace.
  assert (Hc : connect m cfg (Opened s) c
               = (true,
                  set_reconnectAttempts 0
                    (set_status connected
                       (set_session (Some s)
                          (set_model (Some m)
                             (set_config (Some cfg)
                                (set_status connecting c))))),
                  [(LiveConnect m cfg
                      (if JS.truthy (resumptionHandle c)
                       then resumptionHandle c else None),
                    set_model (Some m)
                      (set_config (Some cfg) (set_status connecting c)))])).
  { unfold connect, bind.
    rewrite (connectBegin_from_disconnected m cfg c Hst). reflexivity. }
  rewrite Hc. cbn [final trace fst snd].
  match goal with
  | |- context [onclose e ?c1] =>
      destruct (onclose_run e c1) as [Hf Ht]
  end.
  rewrite !timers_app, Hf, Ht. simpl_fields. rewrite Hen.
  destruct (Z.eqb_spec (code e) 1000) as [Heq|_]; [congruence|].
  simpl_fields.
  destruct (Nat.leb_spec (maxReconnectAttempts c) 0); [lia|].
  cbn. rewrite Z.mul_1_r. split; reflexivity.
Qed.

Lemma backoff_restarts_after_success_witness :
  timers
    (trace (run Samples.rawBytes Samples.heap
              [OpConnect "models/live" 1 (Opened 9);
               OpClose Samples.abnormalClose]
              (set_reconnectAttempts 3 initial)))
  = [(CbAttemptReconnection, 1000%Z)].
Proof.
  apply (backoff_restarts_after_success
           Samples.rawBytes Samples.heap "models/live" 1 9
           Samples.abnormalClose (set_reconnectAttempts 3 initial)).
  - reflexivity.
  - reflexivity.
  - cbn. lia.
  - discriminate.
Defined.

(** *** What inbound messages can do *)

Lemma set_resumptionHandle_same (c : Client) :
  set_resumptionHandle (resumptionHandle c) c = c.
Proof. destruct c. reflexivity. Qed.

(** A trace made of message actions only shows nothing in these views. *)
Lemma messageEffects_views (t : Trace) :
  Forall (fun x => messageEffect (fst x) = true) t ->
  transmissions t = []
  /\ liveConnects t = []
  /\ backoffDelays t = []
  /\ closeNotifications t = [].
Proof.
  intros Hall. induction t as [|[e c0] t IH]; [repeat split|].
  inversion Hall as [|x l Hx Hl]; subst.
  destruct (IH Hl) as (I1 & I2 & I3 & I4).
  unfold transmissions, effects, liveConnects, backoffDelays, timers,
    closeNotifications in *.
  cbn [fst] in Hx.
  destruct e as [ev| | | | | |cb dl|]; try discriminate Hx.
  - destruct ev; try discriminate Hx; cbn; repeat split; assumption.
  - destruct cb; try discriminate Hx. cbn. repeat split; assumption.
  - cbn. repeat split; assumption.
Qed.

Section Messages.

Variable base64ToArrayBuffer : string -> ArrayBuffer.
Variable h : Heap.

Lemma forEachBase64_effects (l : list (option string)) (c : Client) :
  Forall (fun x => messageEffect (fst x) = true)
         (trace (forEachBase64 base64ToArrayBuffer l c)).
Proof.
  revert c. induction l as [|o l IH]; intros c; [constructor|].
  cbn [forEachBase64]. rewrite bind_trace. apply Forall_app. split.
  - destruct o as [s|]; [destruct (JS.truthy (Some s))|]; run_method;
      repeat constructor.
  - apply IH.
Qed.

Lemma onServerContent_effects (msg : LiveServerMessage)
      (sc : LiveServerContent) (c : Client) :
  Forall (fun x => messageEffect (fst x) = true)
         (trace (onServerContent base64ToArrayBuffer h msg sc c)).
Proof.
  unfold onServerContent.
  destruct (interrupted sc); [repeat constructor|].
  rewrite bind_trace. apply Forall_app. split.
  - destruct (turnComplete sc); repeat constructor.
  - destruct (modelTurn sc) as [mt|]; [|constructor].
    rewrite bind_trace. apply Forall_app. split.
    + apply forEachBase64_effects.
    + match goal with
      | |- context [if ?b then _ else _] => destruct b
      end; repeat constructor.
Qed.

(** [onmessage] never opens or uses the transport, arms no backoff timer
    and gives no open, error or close notification. *)
Lemma onmessage_effects (msg : LiveServerMessage) (c : Client) :
  Forall (fun x => messageEffect (fst x) = true)
         (trace (onmessage base64ToArrayBuffer h msg c)).
Proof.
  unfold onmessage.
  destruct (setupComplete msg); [repeat constructor|].
  destruct (goAway msg) as [g|].
  { run_method. split_cases; repeat constructor. }
  destruct (sessionResumptionUpdate msg) as [u|].
  { run_method. split_cases; repeat constructor. }
  destruct (toolCall msg); [repeat constructor|].
  destruct (toolCallCancellation msg); [repeat constructor|].
  destruct (serverContent msg) as [sc|]; [|repeat constructor].
  apply onServerContent_effects.
Qed.

(** The fields after [onmessage] are the fields before, up to the
    resumption handle. *)
Lemma onmessage_final (msg : LiveServerMessage) (c : Client) :
  final (onmessage base64ToArrayBuffer h msg c)
  = set_resumptionHandle
      (resumptionHandle (final (onmessage base64ToArrayBuffer h msg c))) c.
Proof.
  unfold onmessage.
  destruct (setupComplete msg);
    [symmetry; apply set_resumptionHandle_same|].
  destruct (goAway msg) as [g|].
  { run_method. split_cases; symmetry; apply set_resumptionHandle_same. }
  destruct (sessionResumptionUpdate msg) as [u|].
  { run_method. split_cases;
      solve [reflexivity|symmetry; apply set_resumptionHandle_same]. }
  destruct (toolCall msg);
    [symmetry; apply set_resumptionHandle_same|].
  destruct (toolCallCancellation msg);
    [symmetry; apply set_resumptionHandle_same|].
  destruct (serverContent msg) as [sc|];
    [|symmetry; apply set_resumptionHandle_same].
  rewrite (onServerContent_final base64ToArrayBuffer h).
  symmetry. apply set_resumptionHandle_same.
Qed.

Lemma onmessage_views (msg : LiveServerMessage) (c : Client) :
  transmissions (trace (onmessage base64ToArrayBuffer h msg c)) = []
  /\ liveConnects (trace (onmessage base64ToArrayBuffer h msg c)) = []
  /\ backoffDelays (trace (onmessage base64ToArrayBuffer h msg c)) = []
  /\ closeNotifications (trace (onmessage base64ToArrayBuffer h msg c)) = [].
Proof. apply messageEffects_views. apply onmessage_effects. Qed.

(** X9. An inbound message can write one field only, the resumption
    handle: the status, the session handle, the stored model and config and
    the whole reconnection state are the same after [onmessage] as before,
    whatever the message.  Nor does [onmessage] ever call the transport,
    request an open, arm a backoff timer or give a close notification. *)
Theorem onmessage_writes_only_the_handle
        (msg : LiveServerMessage) (c : Client) :
  final (onmessage base64ToArrayBuffer h msg c)
  = set_resumptionHandle
      (resumptionHandle (final (onmessage base64ToArrayBuffer h msg c))) c
  /\ transmissions (trace (onmessage base64ToArrayBuffer h msg c)) = []
  /\ liveConnects (trace (onmessage base64ToArrayBuffer h msg c)) = []
  /\ backoffDelays (trace (onmessage base64ToArrayBuffer h msg c)) = []
  /\ closeNotifications (trace (onmessage base64ToArrayBuffer h msg c)) = [].
Proof.
  split; [apply onmessage_final|apply onmessage_views].
Qed.

End Messages.

(** *** Invariants of runs *)

Lemma backoffDelays_app (t1 t2 : Trace) :
  backoffDelays (t1 ++ t2) = backoffDelays t1 ++ backoffDelays t2.
Proof. unfold backoffDelays. rewrite timers_app. apply flat_map_app. Qed.

Lemma liveConnects_app (t1 t2 : Trace) :
  liveConnects (t1 ++ t2) = liveConnects t1 ++ liveConnects t2.
Proof. apply flat_map_app. Qed.

Lemma closeNotifications_app (t1 t2 : Trace) :
  closeNotifications (t1 ++ t2)
  = closeNotifications t1 ++ closeNotifications t2.
Proof. apply flat_map_app. Qed.

Lemma sendRealtimeInput_views (chunks : list Chunk) (c : Client) :
  liveConnects (trace (sendRealtimeInput chunks c)) = []
  /\ backoffDelays (trace (sendRealtimeInput chunks c)) = []
  /\ closeNotifications (trace (sendRealtimeInput chunks c)) = [].
Proof.
  rewrite sendRealtimeInput_run. cbn [trace snd].
  rewrite liveConnects_app, backoffDelays_app, closeNotifications_app.
  unfold handOvers. destruct (session c) as [s|]; [|repeat split].
  induction (forwarded chunks false false) as [|x l (I1 & I2 & I3)];
    [repeat split|].
  cbn in *. repeat split; assumption.
Qed.

Section Runs.

Variable base64ToArrayBuffer : string -> ArrayBuffer.
Variable h : Heap.

(** No entry point writes the ceiling or the base delay, and none takes
    the attempt counter above the ceiling. *)
Lemma step_counters (op : Op) (c : Client) :
  maxReconnectAttempts (final (step base64ToArrayBuffer h op c))
  = maxReconnectAttempts c
  /\ reconnectDelay (final (step base64ToArrayBuffer h op c))
     = reconnectDelay c
  /\ (reconnectAttempts c <= maxReconnectAttempts c ->
      reconnectAttempts (final (step base64ToArrayBuffer h op c))
      <= maxReconnectAttempts c).
Proof.
  destruct op; cbn [step].
  9: { rewrite sendRealtimeInput_final. repeat split. intros H. exact H. }
  8: { rewrite (onmessage_final base64ToArrayBuffer h). simpl_fields.
       repeat split. intros H. exact H. }
  all: unfold_methods; run_method; split_cases; orders;
    repeat split; intros; simpl_fields; try reflexivity; lia.
Qed.

(** A backoff timer armed by an entry point carries the delay of the
    counter the entry point found, which was below the ceiling. *)
Lemma step_backoff (op : Op) (c : Client) :
  Forall (fun dl =>
            reconnectAttempts c < maxReconnectAttempts c
            /\ dl = (reconnectDelay c * 2 ^ Z.of_nat (reconnectAttempts c))%Z)
         (backoffDelays (trace (step base64ToArrayBuffer h op c))).
Proof.
  destruct op; cbn [step].
  9: { rewrite (proj1 (proj2 (sendRealtimeInput_views chunks c))).
       constructor. }
  8: { destruct (onmessage_views base64ToArrayBuffer h msg c)
         as (_ & _ & Hb & _). rewrite Hb. constructor. }
  all: unfold_methods; run_method; split_cases; orders;
    cbn; repeat constructor; lia.
Qed.

Lemma run_counters (ops : list Op) (c : Client) :
  maxReconnectAttempts (final (run base64ToArrayBuffer h ops c))
  = maxReconnectAttempts c
  /\ reconnectDelay (final (run base64ToArrayBuffer h ops c))
     = reconnectDelay c
  /\ (reconnectAttempts c <= maxReconnectAttempts c ->
      reconnectAttempts (final (run base64ToArrayBuffer h ops c))
      <= maxReconnectAttempts c).
Proof.
  revert c. induction ops as [|op ops IH]; intros c.
  - rewrite run_nil. repeat split. intros H. exact H.
  - rewrite run_cons_final.
    destruct (step_counters op c) as (Hm & Hd & Ha).
    destruct (IH (final (step base64ToArrayBuffer h op c)))
      as (Hm' & Hd' & Ha').
    rewrite Hm', Hd', Hm, Hd. repeat split.
    intros Hle. rewrite Hm in Ha'. apply Ha'. apply Ha. exact Hle.
Qed.

(** X10. Along any sequence of entry points, in any interleaving, the
    attempt counter never exceeds the ceiling, and neither the ceiling nor
    the base delay is ever written: [getReconnectionStatus] always reports
    [attempts <= maxAttempts], with the [maxAttempts] of the start. *)
Theorem attempts_never_exceed_ceiling (ops : list Op) (c : Client) :
  reconnectAttempts c <= maxReconnectAttempts c ->
  attempts (getReconnectionStatus (final (run base64ToArrayBuffer h ops c)))
  <= maxAttempts
       (getReconnectionStatus (final (run base64ToArrayBuffer h ops c)))
  /\ maxAttempts
       (getReconnectionStatus (final (run base64ToArrayBuffer h ops c)))
     = maxReconnectAttempts c
  /\ reconnectDelay (final (run base64ToArrayBuffer h ops c))
     = reconnectDelay c.
Proof.
  intros Hle. destruct (run_counters ops c) as (Hm & Hd & Ha).
  cbn [getReconnectionStatus attempts maxAttempts].
  rewrite Hm. repeat split; [apply Ha; exact Hle|exact Hd].
Qed.

Lemma run_backoff (ops : list Op) (c : Client) :
  Forall (fun dl =>
            exists k, k < maxReconnectAttempts c
                      /\ dl = (reconnectDelay c * 2 ^ Z.of_nat k)%Z)
         (backoffDelays (trace (run base64ToArrayBuffer h ops c))).
Proof.
  revert c. induction ops as [|op ops IH]; intros c; [constructor|].
  rewrite run_cons_trace, backoffDelays_app. apply Forall_app. split.
  - eapply Forall_impl; [|apply step_backoff].
    cbn beta. intros dl [Hlt Hdl].
    exists (reconnectAttempts c). split; assumption.
  - destruct (step_counters op c) as (Hm & Hd & _).
    specialize (IH (final (step base64ToArrayBuffer h op c))).
    rewrite Hm, Hd in IH. exact IH.
Qed.

(** X11. Every backoff timer armed along any sequence of entry points has
    the delay [reconnectDelay * 2 ^ k] for some [k] below the ceiling; with
    a base delay that is not negative, no backoff delay is negative or
    longer than [reconnectDelay * 2 ^ (maxReconnectAttempts - 1)]. *)
Theorem backoff_delays_bounded (ops : list Op) (c : Client) :
  Forall (fun dl =>
            exists k, k < maxReconnectAttempts c
                      /\ dl = (reconnectDelay c * 2 ^ Z.of_nat k)%Z)
         (backoffDelays (trace (run base64ToArrayBuffer h ops c)))
  /\ ((0 <= reconnectDelay c)%Z ->
      Forall (fun dl =>
                (0 <= dl
                 <= reconnectDelay c
                    * 2 ^ Z.of_nat (maxReconnectAttempts c - 1))%Z)
             (backoffDelays (trace (run base64ToArrayBuffer h ops c)))).
Proof.
  split; [apply run_backoff|].
  intros Hpos. eapply Forall_impl; [|apply run_backoff].
  cbn beta. intros dl (k & Hk & ->). split.
  - apply Z.mul_nonneg_nonneg; [exact Hpos|].
    apply Z.pow_nonneg. lia.
  - apply Z.mul_le_mono_nonneg_l; [exact Hpos|].
    apply Z.pow_le_mono_r; lia.
Qed.

End Runs.

Lemma attempts_never_exceed_ceiling_witness :
  attempts
    (getReconnectionStatus
       (final (run Samples.rawBytes Samples.heap
                 [OpClose Samples.abnormalClose;
                  OpReconnectTimer OpenFailed;
                  OpClose Samples.abnormalClose]
                 initial)))
  <= 5.
Proof.
  destruct (attempts_never_exceed_ceiling
              Samples.rawBytes Samples.heap
              [OpClose Samples.abnormalClose;
               OpReconnectTimer OpenFailed;
               OpClose Samples.abnormalClose]
              initial) as (Ha & Hm & _).
  - cbn. lia.
  - rewrite Hm in Ha. exact Ha.
Defined.

Lemma backoff_delays_bounded_witness :
  Forall (fun dl => (0 <= dl <= 16000)%Z)
         (backoffDelays
            (trace (run Samples.rawBytes Samples.heap
                      [OpClose Samples.abnormalClose;
                       OpReconnectTimer OpenFailed;
                       OpClose Samples.abnormalClose]
                      initial))).
Proof.
  apply (proj2 (backoff_delays_bounded
                  Samples.rawBytes Samples.heap
                  [OpClose Samples.abnormalClose;
                   OpReconnectTimer OpenFailed;
                   OpClose Samples.abnormalClose]
                  initial)).
  cbn. lia.
Defined.

Section Sequential.

Variable base64ToArrayBuffer : string -> ArrayBuffer.
Variable h : Heap.

Lemma step_coherent (op : Op) (c : Client) :
  isHalf op = false ->
  coherent c ->
  coherent (final (step base64ToArrayBuffer h op c)).
Proof.
  intros Hop [Hnc Hiff].
  assert (Hcases : (status c = connected /\ exists s, session c = Some s)
                   \/ (status c = disconnected /\ session c = None)).
  { destruct (status c) eqn:Hst.
    - left. split; [reflexivity|].
      destruct (session c) as [s|] eqn:Hse; [exists s; reflexivity|].
      exfalso. apply (proj1 Hiff); reflexivity.
    - right. split; [reflexivity|].
      destruct (session c) as [s|] eqn:Hse; [|reflexivity].
      assert (disconnected = connected) by (apply (proj2 Hiff); discriminate).
      discriminate.
    - exfalso. apply Hnc. reflexivity. }
  assert (Hc : coherent c) by (split; assumption).
  destruct op; try discriminate Hop; cbn [step].
  6: { rewrite (onmessage_final base64ToArrayBuffer h).
       unfold coherent. simpl_fields. exact Hc. }
  6: { rewrite sendRealtimeInput_final. exact Hc. }
  all: destruct Hcases as [[Hst [s0 Hse]]|[Hst Hse]];
    unfold_methods; run_method;
    repeat (repeat progress (simpl_fields; rewrite ?Hst, ?Hse;
                             cbn [Status_eqb orb andb]);
            match goal with
            | |- context [match ?x with _ => _ end] =>
                lazymatch type of x with
                | prod _ _ => fail
                | _ => destruct x eqn:?
                end
            end);
    repeat progress (simpl_fields; rewrite ?Hst, ?Hse;
                     cbn [Status_eqb orb andb]);
    unfold coherent;
    repeat progress (simpl_fields; rewrite ?Hst, ?Hse);
    (split; [intro; congruence|split; intros; congruence]).
Qed.

(** X12. As long as no other entry point runs while a [connect] is
    awaiting its transport, the status and the session handle stay in
    step: after any sequence of whole entry points the status is never
    connecting, and it is connected exactly when a session is held. *)
Theorem sequential_runs_stay_coherent (ops : list Op) (c : Client) :
  coherent c ->
  forallb (fun op => negb (isHalf op)) ops = true ->
  coherent (final (run base64ToArrayBuffer h ops c)).
Proof.
  revert c. induction ops as [|op ops IH]; intros c Hc Hops; [exact Hc|].
  cbn [forallb] in Hops. apply andb_true_iff in Hops.
  destruct Hops as [Hop Hrest]. apply negb_true_iff in Hop.
  rewrite run_cons_final. apply IH; [|exact Hrest].
  apply step_coherent; assumption.
Qed.

(** Every transport open requested by an entry point presents the handle
    the entry point found stored. *)
Lemma step_liveConnects (op : Op) (c : Client) :
  Forall (fun x => snd x = (if JS.truthy (resumptionHandle c)
                            then resumptionHandle c else None))
         (liveConnects (trace (step base64ToArrayBuffer h op c))).
Proof.
  destruct op; cbn [step].
  9: { rewrite (proj1 (sendRealtimeInput_views chunks c)). constructor. }
  8: { destruct (onmessage_views base64ToArrayBuffer h msg c)
         as (_ & Hl & _). rewrite Hl. constructor. }
  all: destruct (JS.truthy (resumptionHandle c)) eqn:Ht;
    unfold_methods; run_method;
    repeat (simpl_fields; rewrite ?Ht;
            match goal with
            | |- context [match ?x with _ => _ end] =>
                lazymatch type of x with
                | prod _ _ => fail
                | _ => destruct x eqn:?
                end
            end);
    simpl_fields; rewrite ?Ht; cbn; repeat constructor.
Qed.

(** X13. A resumption handle, once received, is presented at every later
    transport open: after an update that reports [resumable] true with the
    non-empty handle [hd], every open requested along any sequence of entry
    points that are not messages carries exactly [hd], with the model and
    config of the request. *)
Theorem received_handle_is_presented
        (msg : LiveServerMessage) (u : SessionResumptionUpdate) (hd : string)
        (ops : list Op) (c : Client) :
  setupComplete msg = None -> goAway msg = None ->
  sessionResumptionUpdate msg = Some u ->
  resumable u = Some true -> newHandle u = Some hd -> hd <> "" ->
  forallb (fun op => negb (isMessage op)) ops = true ->
  Forall (fun x => snd x = Some hd)
         (liveConnects
            (trace (run base64ToArrayBuffer h (OpMessage msg :: ops) c))).
Proof.
  intros Hs Hg Hu Hr Hn Hne Hops.
  assert (Ht : JS.truthy (Some hd) = true).
  { unfold JS.truthy. apply negb_true_iff. apply String.eqb_neq. exact Hne. }
  rewrite run_cons_trace, liveConnects_app. apply Forall_app. split.
  { cbn [step].
    destruct (onmessage_views base64ToArrayBuffer h msg c) as (_ & Hl & _).
    rewrite Hl. constructor. }
  assert (Hh : resumptionHandle
                 (final (step base64ToArrayBuffer h (OpMessage msg) c))
               = Some hd).
  { cbn [step]. rewrite onmessage_handle, Hs, Hg, Hu, Hr, Hn.
    cbn [JS.truthyb andb]. rewrite Ht. reflexivity. }
  revert Hh. generalize (final (step base64ToArrayBuffer h (OpMessage msg) c)).
  clear c. induction ops as [|op ops IH]; intros c Hh; [constructor|].
  cbn [forallb] in Hops. apply andb_true_iff in Hops.
  destruct Hops as [Hop Hrest]. apply negb_true_iff in Hop.
  rewrite run_cons_trace, liveConnects_app. apply Forall_app. split.
  - eapply Forall_impl; [|apply step_liveConnects].
    cbn beta. intros x Hx. rewrite Hh, Ht in Hx. exact Hx.
  - apply IH; [exact Hrest|].
    rewrite step_keeps_handle; [exact Hh|].
    intros m ->. discriminate Hop.
Qed.

Lemma step_closeNotifications (op : Op) (c : Client) :
  closeNotifications (trace (step base64ToArrayBuffer h op c))
  = closeEvents [op].
Proof.
  destruct op; cbn [step].
  9: { rewrite (proj2 (proj2 (sendRealtimeInput_views chunks c))).
       reflexivity. }
  8: { destruct (onmessage_views base64ToArrayBuffer h msg c)
         as (_ & _ & _ & Hc). rewrite Hc. reflexivity. }
  all: unfold_methods; run_method; split_cases; reflexivity.
Qed.

(** X14. Close notifications mirror close events: along any sequence of
    entry points the close notifications given are exactly the close
    events received, each once and in order.  No other entry point,
    [disconnect] included, gives a close notification. *)
Theorem close_notifications_mirror_close_events
        (ops : list Op) (c : Client) :
  closeNotifications (trace (run base64ToArrayBuffer h ops c))
  = closeEvents ops.
Proof.
  revert c. induction ops as [|op ops IH]; intros c; [reflexivity|].
  rewrite run_cons_trace, closeNotifications_app, step_closeNotifications, IH.
  unfold closeEvents. cbn [flat_map]. rewrite app_nil_r. reflexivity.
Qed.

(** X15. The stored model and config are written by [connect] alone: every
    other entry point, the reconnection timer included, leaves both as
    they were, so that a reconnection always reuses the model and config of
    the last [connect] call. *)
Theorem identity_written_only_by_connect (op : Op) (c : Client) :
  isConnectCall op = false ->
  model (final (step base64ToArrayBuffer h op c)) = model c
  /\ config (final (step base64ToArrayBuffer h op c)) = config c.
Proof.
  intros Hop. destruct op; try discriminate Hop; cbn [step].
  7: { rewrite sendRealtimeInput_final. split; reflexivity. }
  6: { rewrite (onmessage_final base64ToArrayBuffer h). simpl_fields.
       split; reflexivity. }
  all: unfold_methods; run_method; split_cases;
    split; solve [reflexivity|congruence].
Qed.

End Sequential.

Lemma coherent_initial : coherent initial.
Proof.
  split; [discriminate|]. split; [discriminate|].
  intros H. exfalso. apply H. reflexivity.
Qed.

Lemma sequential_runs_stay_coherent_witness :
  coherent
    (final (run Samples.rawBytes Samples.heap
              [OpConnect "models/live" 1 (Opened 7);
               OpClose Samples.abnormalClose;
               OpReconnectTimer OpenFailed;
               OpReconnectTimer (Opened 8);
               OpDisconnect]
              initial)).
Proof.
  apply (sequential_runs_stay_coherent Samples.rawBytes Samples.heap).
  - exact coherent_initial.
  - reflexivity.
Defined.

(** Without the proviso the status and the session handle can part: a
    second [connect] started after a close, while the first is still
    awaiting, and failing after the first has succeeded, leaves the client
    disconnected with a session held. *)
Example interleaved_connects_part_status_and_session
        (d : string -> ArrayBuffer) (h : Heap) :
  let c := final (run d h [OpConnectBegin "models/live" 1;
                           OpClose Samples.normalClose;
                           OpConnectBegin "models/live" 1;
                           OpConnectResume (Opened 7);
                           OpConnectResume OpenFailed] initial) in
  status c = disconnected /\ session c = Some 7.
Proof. split; reflexivity. Qed.

Lemma received_handle_is_presented_witness :
  Forall (fun x => snd x = Some "h2")
         (liveConnects
            (trace (run Samples.rawBytes Samples.heap
                      [OpMessage
                         (Samples.resumptionMessage (Some true) (Some "h2"));
                       OpClose Samples.abnormalClose;
                       OpReconnectTimer (Opened 8)]
                      (final (connect "models/live" 1 (Opened 7) initial))))).
Proof.
  apply (received_handle_is_presented
           Samples.rawBytes Samples.heap
           (Samples.resumptionMessage (Some true) (Some "h2"))
           {| resumable := Some true; newHandle := Some "h2" |} "h2"
           [OpClose Samples.abnormalClose; OpReconnectTimer (Opened 8)]);
    try reflexivity.
  discriminate.
Defined.

Lemma identity_written_only_by_connect_witness :
  model (final (step Samples.rawBytes Samples.heap
                  (OpReconnectTimer (Opened 8)) Samples.exhaustedClient))
  = Some "models/live".
Proof.
  apply (proj1 (identity_written_only_by_connect
                  Samples.rawBytes Samples.heap
                  (OpReconnectTimer (Opened 8)) Samples.exhaustedClient
                  eq_refl)).
Defined.

(** *** Closes in a row *)

Section Closes.

Variable base64ToArrayBuffer : string -> ArrayBuffer.
Variable h : Heap.

Lemma closes_while_disabled (e : CloseEvent) (k : nat) (c : Client) :
  autoReconnectEnabled c = false ->
  timers (trace (run base64ToArrayBuffer h (repeat (OpClose e) k) c)) = []
  /\ reconnectAttempts
       (final (run base64ToArrayBuffer h (repeat (OpClose e) k) c))
     = reconnectAttempts c
  /\ autoReconnectEnabled
       (final (run base64ToArrayBuffer h (repeat (OpClose e) k) c)) = false.
Proof.
  revert c. induction k as [|k IH]; intros c Hoff.
  - rewrite run_nil. repeat split. exact Hoff.
  - cbn [repeat]. rewrite run_cons_final, run_cons_trace, timers_app.
    cbn [step]. destruct (onclose_run e c) as [Hf Ht].
    rewrite Hoff in Hf, Ht. cbn [andb] in Hf, Ht.
    rewrite Hf, Ht.
    destruct (IH (set_session None (set_status disconnected c)) Hoff)
      as (I1 & I2 & I3).
    rewrite I1, I2, I3. repeat split.
Qed.

(** X16. Abnormal closes in a row, with nothing succeeding in between: from
    a client with auto-reconnection on and [left] attempts to the ceiling,
    [k] abnormal closes arm [min k left] backoff timers, whose delays start
    at the delay of the current counter and double each time; the counter
    advances by as many, and auto-reconnection is still on afterwards
    exactly when [k <= left]: the close that finds the counter at the
    ceiling switches it off. *)
Theorem abnormal_closes_in_a_row (e : CloseEvent) (k : nat) (c : Client) :
  autoReconnectEnabled c = true ->
  code e <> 1000%Z ->
  reconnectAttempts c <= maxReconnectAttempts c ->
  let left := maxReconnectAttempts c - reconnectAttempts c in
  timers (trace (run base64ToArrayBuffer h (repeat (OpClose e) k) c))
  = map (fun i => (CbAttemptReconnection,
                   (reconnectDelay c
                    * 2 ^ Z.of_nat (reconnectAttempts c + i))%Z))
        (seq 0 (Nat.min k left))
  /\ reconnectAttempts
       (final (run base64ToArrayBuffer h (repeat (OpClose e) k) c))
     = reconnectAttempts c + Nat.min k left
  /\ autoReconnectEnabled
       (final (run base64ToArrayBuffer h (repeat (OpClose e) k) c))
     = Nat.leb k left.
Proof.
  intros Hen Hcode. revert c Hen.
  induction k as [|k IH]; intros c Hen Hle left.
  - rewrite run_nil. cbn. rewrite Nat.add_0_r. repeat split. exact Hen.
  - cbn [repeat]. rewrite run_cons_final, run_cons_trace, timers_app.
    cbn [step]. destruct (onclose_run e c) as [Hf Ht].
    rewrite Hen in Hf, Ht.
    destruct (Z.eqb_spec (code e) 1000) as [Heq|_]; [congruence|].
    cbn [andb negb] in Hf, Ht.
    destruct (Nat.leb_spec (maxReconnectAttempts c) (reconnectAttempts c))
      as [Hge|Hlt].
    + assert (Hleft : left = 0) by (unfold left; lia).
      rewrite Hf, Ht, Hleft.
      destruct (closes_while_disabled e k
                  (set_autoReconnectEnabled false
                     (set_session None (set_status disconnected c)))
                  eq_refl) as (I1 & I2 & I3).
      rewrite I1, I2, I3. simpl_fields.
      rewrite Nat.min_0_r, Nat.add_0_r. repeat split.
    + rewrite Hf, Ht.
      set (c1 := set_reconnectAttempts (S (reconnectAttempts c))
                   (set_session None (set_status disconnected c))).
      destruct (IH c1 Hen) as (I1 & I2 & I3).
      { unfold c1. simpl_fields. lia. }
      rewrite I1, I2, I3. unfold c1. simpl_fields.
      assert (Hmin : Nat.min (S k) left
                     = S (Nat.min k (maxReconnectAttempts c
                                     - S (reconnectAttempts c))))
        by (unfold left; lia).
      rewrite Hmin. split; [|split].
      * cbn [seq map app]. rewrite Nat.add_0_r. f_equal.
        rewrite <- seq_shift, map_map.
        apply map_ext. intros i.
        replace (reconnectAttempts c + S i)
          with (S (reconnectAttempts c) + i) by lia.
        reflexivity.
      * lia.
      * unfold left.
        destruct (Nat.leb_spec k (maxReconnectAttempts c
                                  - S (reconnectAttempts c)));
          destruct (Nat.leb_spec (S k)
                      (maxReconnectAttempts c - reconnectAttempts c));
          try reflexivity; lia.
Qed.

(** X17. The reconnection timer does not ask why the client is
    disconnected: when it fires after a manual [disconnect], with a config
    and a non-empty model stored and a transport that opens, it requests an
    open with the stored model and config and leaves the client connected
    on the new session. *)
Theorem reconnection_timer_undoes_disconnect
        (s0 s : Session) (cfg : LiveConnectConfig) (m : string) (c : Client) :
  session c = Some s0 -> config c = Some cfg -> model c = Some m ->
  m <> "" ->
  let r := run base64ToArrayBuffer h
               [OpDisconnect; OpReconnectTimer (Opened s)] c in
  status (final r) = connected
  /\ session (final r) = Some s
  /\ transmissions (trace r) = [SessionClose s0]
  /\ liveConnects (trace r)
     = [(m, cfg, if JS.truthy (resumptionHandle c)
                 then resumptionHandle c else None)].
Proof.
  intros Hse Hcfg Hm Hne r. unfold r.
  assert (Ht : JS.truthy (Some m) = true).
  { unfold JS.truthy. apply negb_true_iff. apply String.eqb_neq. exact Hne. }
  rewrite !run_cons_final, !run_cons_trace, !run_nil. cbn [step].
  rewrite ignore_final, ignore_trace.
  assert (Hd : disconnect c
               = (true, set_status disconnected (set_session None c),
                  [(SessionClose s0, c);
                   (Emit (EvLog "client.close" (LogText "Disconnected")),
                    set_status disconnected (set_session None c))])).
  { unfold disconnect. run_method. rewrite Hse. reflexivity. }
  rewrite Hd. cbn [final trace fst snd].
  unfold attemptReconnection, attemptReconnectionBegin,
    attemptReconnectionResume, connectBegin, connectResume.
  run_method. rewrite Hcfg, Hm, Ht. simpl_fields.
  cbn. repeat split.
Qed.

End Closes.

Lemma abnormal_closes_in_a_row_witness :
  timers (trace (run Samples.rawBytes Samples.heap
                   (repeat (OpClose Samples.abnormalClose) 7)
                   Samples.liveClient))
  = [(CbAttemptReconnection, 1000%Z); (CbAttemptReconnection, 2000%Z);
     (CbAttemptReconnection, 4000%Z); (CbAttemptReconnection, 8000%Z);
     (CbAttemptReconnection, 16000%Z)].
Proof.
  apply (abnormal_closes_in_a_row Samples.rawBytes Samples.heap
           Samples.abnormalClose 7 Samples.liveClient).
  - reflexivity.
  - discriminate.
  - cbn. lia.
Defined.

Lemma reconnection_timer_undoes_disconnect_witness :
  status
    (final (run Samples.rawBytes Samples.heap
              [OpDisconnect; OpReconnectTimer (Opened 8)]
              (final (connect "models/live" 1 (Opened 7) initial))))
  = connected.
Proof.
  apply (reconnection_timer_undoes_disconnect
           Samples.rawBytes Samples.heap 7 8 1 "models/live"
           (final (connect "models/live" 1 (Opened 7) initial)));
    try reflexivity.
  discriminate.
Defined.

(** ** The settings dialog *)

Lemma truthy_false_empty (s : string) : JS.truthy (Some s) = false -> s = "".
Proof.
  unfold JS.truthy. intros H. apply negb_false_iff in H.
  apply String.eqb_eq. exact H.
Qed.

(** The declarations shown are those of the tools that carry some, tool
    after tool. *)
Lemma functionDeclarations_flatten (config : SettingsDialog.Config) :
  SettingsDialog.functionDeclarations config
  = flat_map (fun t => match SettingsDialog.toolFunctionDeclarations t with
                       | Some l => l
                       | None => []
                       end)
             (match SettingsDialog.cfgTools config with
              | Some ts => ts
              | None => []
              end).
Proof.
  unfold SettingsDialog.functionDeclarations.
  destruct (SettingsDialog.cfgTools config) as [ts|]; [|reflexivity].
  induction ts as [|t ts IH]; [reflexivity|].
  cbn [filter map flat_map].
  destruct (SettingsDialog.toolFunctionDeclarations t) as [l|] eqn:Ht.
  - cbn [map filter flat_map]. rewrite Ht. cbn [filter flat_map].
    f_equal. exact IH.
  - exact IH.
Qed.

(** X18. What is typed into the instruction box is what the box shows
    next: after [updateConfig] with any text, the instruction text read
    from the new config is that text, and the function declarations and the
    heartbeat period are untouched. *)
Theorem updateConfig_round_trip (config : SettingsDialog.Config)
        (value : string) :
  SettingsDialog.systemInstruction (SettingsDialog.updateConfig config value)
  = value
  /\ SettingsDialog.functionDeclarations
       (SettingsDialog.updateConfig config value)
     = SettingsDialog.functionDeclarations config
  /\ SettingsDialog.heartbeatInterval
       (Some (SettingsDialog.updateConfig config value))
     = SettingsDialog.heartbeatInterval (Some config).
Proof.
  split; [|split; reflexivity].
  unfold SettingsDialog.systemInstruction, SettingsDialog.updateConfig.
  cbn [SettingsDialog.cfgSystemInstruction].
  destruct (JS.truthy (Some value)) eqn:Ht; [reflexivity|].
  symmetry. apply truthy_false_empty. exact Ht.
Qed.

(** X19. [updateFunctionDescription] rewrites the description of exactly
    the declarations named as asked, wherever they sit: the declarations
    read from the new config are the old ones, in the same order and with
    the same names, each with the new description if its name is the edited
    one and unchanged otherwise.  The instruction text is untouched. *)
Theorem updateFunctionDescription_rewrites_named
        (config : SettingsDialog.Config) (editedFdName newDescription : string) :
  let config' :=
    SettingsDialog.updateFunctionDescription config editedFdName
                                             newDescription in
  SettingsDialog.functionDeclarations config'
  = map (SettingsDialog.describe editedFdName newDescription)
        (SettingsDialog.functionDeclarations config)
  /\ map SettingsDialog.fdName (SettingsDialog.functionDeclarations config')
     = map SettingsDialog.fdName (SettingsDialog.functionDeclarations config)
  /\ SettingsDialog.systemInstruction config'
     = SettingsDialog.systemInstruction config.
Proof.
  intros config'.
  assert (E : SettingsDialog.functionDeclarations config'
              = map (SettingsDialog.describe editedFdName newDescription)
                    (SettingsDialog.functionDeclarations config)).
  { unfold config'. rewrite !functionDeclarations_flatten.
    unfold SettingsDialog.updateFunctionDescription.
    cbn [SettingsDialog.cfgTools].
    destruct (SettingsDialog.cfgTools config) as [ts|]; [|reflexivity].
    induction ts as [|t ts IH]; [reflexivity|].
    cbn [map flat_map]. rewrite map_app, IH. f_equal.
    destruct (SettingsDialog.toolFunctionDeclarations t) as [l|] eqn:Ht.
    - reflexivity.
    - rewrite Ht. reflexivity. }
  split; [exact E|]. split; [|reflexivity].
  rewrite E, map_map. apply map_ext. intros fd.
  unfold SettingsDialog.describe.
  destruct (SettingsDialog.named editedFdName fd); reflexivity.
Qed.

Lemma describe_describe (n d1 d2 : string)
      (fd : SettingsDialog.FunctionDeclaration) :
  SettingsDialog.describe n d2 (SettingsDialog.describe n d1 fd)
  = SettingsDialog.describe n d2 fd.
Proof.
  unfold SettingsDialog.describe at 2.
  destruct (SettingsDialog.named n fd) eqn:Hn.
  - unfold SettingsDialog.describe, SettingsDialog.named in *.
    cbn [SettingsDialog.fdName SettingsDialog.fdRest]. rewrite Hn.
    reflexivity.
  - reflexivity.
Qed.

(** X20. Editing the same name twice keeps the last description only: the
    config after two edits of one name is the config after the second edit
    alone (so repeating an edit changes nothing more). *)
Theorem updateFunctionDescription_last_edit_wins
        (config : SettingsDialog.Config) (n d1 d2 : string) :
  SettingsDialog.updateFunctionDescription
    (SettingsDialog.updateFunctionDescription config n d1) n d2
  = SettingsDialog.updateFunctionDescription config n d2.
Proof.
  unfold SettingsDialog.updateFunctionDescription.
  cbn [SettingsDialog.cfgTools SettingsDialog.cfgSystemInstruction
       SettingsDialog.cfgHeartbeatInterval SettingsDialog.cfgRest].
  f_equal. f_equal.
  destruct (SettingsDialog.cfgTools config) as [ts|]; [|reflexivity].
  rewrite map_map. apply map_ext. intros t.
  destruct (SettingsDialog.toolFunctionDeclarations t) as [l|] eqn:Ht.
  - cbn [SettingsDialog.toolFunctionDeclarations SettingsDialog.toolRest].
    f_equal. f_equal. rewrite map_map. apply map_ext. intros fd.
    apply describe_describe.
  - rewrite Ht. reflexivity.
Qed.

(** X21. The instruction text does not depend on how the parts are
    wrapped: for a list of parts, the bare array and the content object
    with those parts both read as the texts of the parts joined by
    newlines, a part without text counting as empty. *)
Theorem systemInstruction_of_parts
        (ps : list Part) (tools : option (list SettingsDialog.Tool))
        (hb : option Z) (rest : nat) :
  let joined := SettingsDialog.join (map text ps) in
  SettingsDialog.systemInstruction
    {| SettingsDialog.cfgSystemInstruction :=
         Some (SettingsDialog.CArray (map SettingsDialog.PPart ps));
       SettingsDialog.cfgTools := tools;
       SettingsDialog.cfgHeartbeatInterval := hb;
       SettingsDialog.cfgRest := rest |}
  = joined
  /\ SettingsDialog.systemInstruction
       {| SettingsDialog.cfgSystemInstruction :=
            Some (SettingsDialog.CContent (Some ps));
          SettingsDialog.cfgTools := tools;
          SettingsDialog.cfgHeartbeatInterval := hb;
          SettingsDialog.cfgRest := rest |}
     = joined.
Proof.
  intros joined. unfold SettingsDialog.systemInstruction.
  cbn [SettingsDialog.cfgSystemInstruction]. split.
  - rewrite map_map. reflexivity.
  - fold joined. destruct (JS.truthy (Some joined)) eqn:Ht; [reflexivity|].
    symmetry. apply truthy_false_empty. exact Ht.
Qed.



(** ** The tool-call handler of the graph component *)

(** X23. Whenever the handler returns, it answers every call or none: for a
    tool call with at least one function call it arms one timer of 200 ms
    whose responses are as many as the calls and carry, in order, the id and
    the name of each call, whatever function the call names; for a tool
    call without [functionCalls], or with an empty list, it arms nothing
    and leaves [jsonString] as it was. *)
Theorem onToolCall_answers_every_call
        (toolCall : Altair.ToolCall) (jsonString : option string) :
  (forall calls js timer,
     Altair.functionCalls toolCall = Some calls -> calls <> [] ->
     Altair.onToolCall toolCall jsonString = Altair.Returned js timer ->
     exists responses,
       timer = Some (200%Z, responses)
       /\ List.length responses = List.length calls
       /\ map Altair.respId responses = map Altair.fcId calls
       /\ map Altair.respName responses = map Altair.fcName calls)
  /\ (Altair.functionCalls toolCall = None
      \/ Altair.functionCalls toolCall = Some [] ->
      Altair.onToolCall toolCall jsonString
      = Altair.Returned jsonString None).
Proof.
  split.
  - intros calls js timer Hc Hne. unfold Altair.onToolCall. rewrite Hc.
    destruct calls as [|fc0 calls']; [congruence|].
    set (calls := fc0 :: calls').
    destruct (find _ calls) as [found|].
    + destruct (Altair.fcArgs found); [|discriminate].
      intros [= <- <-]. eexists. split; [reflexivity|].
      unfold calls. cbn [List.length map Altair.respId Altair.respName].
      rewrite length_map, !map_map. repeat split.
    + intros [= <- <-]. eexists. split; [reflexivity|].
      unfold calls. cbn [List.length map Altair.respId Altair.respName].
      rewrite length_map, !map_map. repeat split.
  - intros [H|H]; unfold Altair.onToolCall; rewrite H; reflexivity.
Qed.

Lemma onToolCall_answers_every_call_witness :
  exists responses,
    Some (200%Z,
          [{| Altair.respId := Some "c1"; Altair.respName := Some "search" |}])
    = Some (200%Z, responses)
    /\ List.length responses = 1.
Proof.
  destruct (onToolCall_answers_every_call
              {| Altair.functionCalls :=
                   Some [{| Altair.fcId := Some "c1";
                            Altair.fcName := Some "search";
                            Altair.fcArgs := None |}] |}
              (Some "")) as [Hall _].
  destruct (Hall [{| Altair.fcId := Some "c1";
                     Altair.fcName := Some "search";
                     Altair.fcArgs := None |}]
                 (Some "")
                 (Some (200%Z,
                        [{| Altair.respId := Some "c1";
                            Altair.respName := Some "search" |}]))
                 eq_refl)
    as (responses & Ht & Hl & _).
  - discriminate.
  - reflexivity.
  - exists responses. split; [exact Ht|exact Hl].
Defined.

(** X24. Only the first call named [render_altair] counts for the graph:
    when the calls are [before ++ fc :: after] with no call of that name in
    [before] and [fc] of that name, the handler sets [jsonString] to the
    [json_graph] of [fc] if [fc] has arguments, and throws, answering no
    call at all, if it has none; when no call has that name the handler
    returns with [jsonString] as it was. *)
Theorem onToolCall_reads_first_graph
        (toolCall : Altair.ToolCall) (jsonString : option string)
        (calls : list Altair.FunctionCall) :
  Altair.functionCalls toolCall = Some calls ->
  (forall before fc after,
     calls = before ++ fc :: after ->
     Forall (fun c => Altair.fcName c <> Some Altair.declarationName) before ->
     Altair.fcName fc = Some Altair.declarationName ->
     match Altair.fcArgs fc with
     | Some args =>
         exists timer,
           Altair.onToolCall toolCall jsonString
           = Altair.Returned (Altair.json_graph args) timer
     | None => Altair.onToolCall toolCall jsonString = Altair.Threw
     end)
  /\ (Forall (fun c => Altair.fcName c <> Some Altair.declarationName) calls ->
      exists timer,
        Altair.onToolCall toolCall jsonString
        = Altair.Returned jsonString timer).
Proof.
  intros Hc.
  set (isGraph := fun fc : Altair.FunctionCall =>
                    match Altair.fcName fc with
                    | Some n => String.eqb n Altair.declarationName
                    | None => false
                    end).
  assert (Hno : forall l,
             Forall (fun c => Altair.fcName c <> Some Altair.declarationName) l ->
             forall rest, find isGraph (l ++ rest) = find isGraph rest).
  { intros l Hl rest. induction Hl as [|x l Hx Hl IH]; [reflexivity|].
    cbn [app find]. unfold isGraph at 1.
    destruct (Altair.fcName x) as [n|] eqn:Hn; [|exact IH].
    destruct (String.eqb_spec n Altair.declarationName) as [E|_];
      [|exact IH].
    exfalso. apply Hx. rewrite E. reflexivity. }
  split.
  - intros before fc after Hsplit Hbefore Hname.
    unfold Altair.onToolCall. rewrite Hc. fold isGraph.
    rewrite Hsplit, (Hno before Hbefore (fc :: after)).
    assert (Hg : isGraph fc = true).
    { unfold isGraph. rewrite Hname. apply String.eqb_refl. }
    cbn [find]. rewrite Hg.
    destruct (Altair.fcArgs fc) as [args|]; [|reflexivity].
    eexists. reflexivity.
  - intros Hall. unfold Altair.onToolCall. rewrite Hc. fold isGraph.
    rewrite <- (app_nil_r calls), (Hno calls Hall []). cbn [find].
    eexists. reflexivity.
Qed.

Lemma onToolCall_reads_first_graph_witness :
  Altair.onToolCall
    {| Altair.functionCalls :=
         Some [{| Altair.fcId := Some "c1";
                  Altair.fcName := Some "search";
                  Altair.fcArgs := None |};
               {| Altair.fcId := Some "c2";
                  Altair.fcName := Some "render_altair";
                  Altair.fcArgs := None |}] |}
    (Some "")
  = Altair.Threw.
Proof.
  destruct (onToolCall_reads_first_graph
              {| Altair.functionCalls :=
                   Some [{| Altair.fcId := Some "c1";
                            Altair.fcName := Some "search";
                            Altair.fcArgs := None |};
                         {| Altair.fcId := Some "c2";
                            Altair.fcName := Some "render_altair";
                            Altair.fcArgs := None |}] |}
              (Some "") _ eq_refl) as [Hfirst _].
  apply (Hfirst [{| Altair.fcId := Some "c1";
                    Altair.fcName := Some "search";
                    Altair.fcArgs := None |}]
                {| Altair.fcId := Some "c2";
                   Altair.fcName := Some "render_altair";
                   Altair.fcArgs := None |}
                []).
  - reflexivity.
  - constructor; [discriminate|constructor].
  - reflexivity.
Defined.

(** ** Which session is called *)

Section Targets.

Variable base64ToArrayBuffer : string -> ArrayBuffer.
Variable h : Heap.

(** X25. The transport is only ever called on the session held: every
    transport call made by an entry point is made on the session the entry
    point found in the session handle, so an entry point that finds no
    session makes no transport call at all. *)
Theorem transport_calls_target_held_session (op : Op) (c : Client) :
  Forall (fun e => targetSession e = session c)
         (transmissions (trace (step base64ToArrayBuffer h op c)))
  /\ (session c = None ->
      transmissions (trace (step base64ToArrayBuffer h op c)) = []).
Proof.
  assert (Hall : Forall (fun e => targetSession e = session c)
                   (transmissions (trace (step base64ToArrayBuffer h op c)))).
  { destruct op; cbn [step].
    9: { rewrite sendRealtimeInput_run. cbn [trace snd].
         unfold transmissions, effects, handOvers.
         rewrite map_app, filter_app. apply Forall_app. split.
         - destruct (session c) as [s|]; [|constructor].
           induction (forwarded chunks false false) as [|x l IH];
             [constructor|].
           cbn. constructor; [reflexivity|exact IH].
         - cbn. constructor. }
    8: { destruct (onmessage_views base64ToArrayBuffer h msg c) as (Ht & _).
         rewrite Ht. constructor. }
    all: destruct (session c) as [s0|] eqn:Hse;
      unfold_methods; run_method;
      repeat (simpl_fields; rewrite ?Hse;
              match goal with
              | |- context [match ?x with _ => _ end] =>
                  lazymatch type of x with
                  | prod _ _ => fail
                  | _ => destruct x eqn:?
                  end
              end);
      simpl_fields; rewrite ?Hse; cbn; repeat constructor. }
  split; [exact Hall|].
  intros Hnone. rewrite Hnone in Hall.
  destruct (transmissions (trace (step base64ToArrayBuffer h op c)))
    as [|e l] eqn:Ht; [reflexivity|].
  assert (Hin : In e (transmissions
                        (trace (step base64ToArrayBuffer h op c)))).
  { rewrite Ht. left. reflexivity. }
  unfold transmissions in Hin. apply filter_In in Hin.
  destruct Hin as [_ Hk].
  inversion Hall as [|x l' Hx Hl]; subst.
  destruct e; discriminate.
Qed.

End Targets.

Lemma transport_calls_target_held_session_witness :
  transmissions
    (trace (step Samples.rawBytes Samples.heap
              (OpSend (OnePart 1) true) initial))
  = [].
Proof.
  apply (proj2 (transport_calls_target_held_session
                  Samples.rawBytes Samples.heap
                  (OpSend (OnePart 1) true) initial)).
  reflexivity.
Defined.
